(** * Book-review platform: authentication and access-control core

    A shallow embedding of [backend/auth.py], of the registration and
    start-up code of [backend/main.py] and of the [User] table of
    [models.py], followed by the properties of the lockout tracker, the
    PIN issuer and the session tokens.

    Conventions of the embedding:
    - a Python [int] is a [Z];
    - a naive [datetime] is the number of microseconds since the Unix
      epoch, a [timedelta] is the normalised triple Python keeps;
    - the module-level dict [failed_attempts] is a [gmap] from strings;
    - the [User] table is the list of its rows in the order the store
      returns them, so that [.first()] is the first match of that list;
    - every value that the code obtains from outside (a reading of
      [datetime.utcnow()], a result of [random.randint]) is an argument
      of the function that obtains it;
    - a function that reads or writes the dict or the session is a
      computation in the state-and-exception monad [M]: an exception
      leaves the state as it was at the point of the [raise]. *)

From Stdlib Require Import ZArith Ascii String List Lia Bool.
From stdpp Require Import base option list strings pretty gmap fin_maps.

Local Open Scope string_scope.
Local Open Scope Z_scope.

(** ** Time: [datetime] and [timedelta] *)

Module Datetime.

(** A naive UTC [datetime], in microseconds since the epoch. *)
Definition datetime := Z.

(** [timedelta] as Python stores it: [0 <= seconds < 86400] and
    [0 <= microseconds < 10^6]; only [days] carries the sign. *)
Record timedelta := mk_timedelta {
  days : Z;
  seconds : Z;
  microseconds : Z
}.

Definition us_per_second : Z := 1000000.
Definition us_per_day : Z := 86400 * us_per_second.

(** The normalisation done by the [timedelta] constructor. *)
Definition timedelta_of_us (us : Z) : timedelta :=
  {| days := us / us_per_day;
     seconds := (us mod us_per_day) / us_per_second;
     microseconds := us mod us_per_second |}.

(** [a - b] on datetimes. *)
Definition datetime_sub (a b : datetime) : timedelta :=
  timedelta_of_us (a - b).

(** [timedelta(hours=h)]. *)
Definition hours (h : Z) : timedelta :=
  timedelta_of_us (h * 3600 * us_per_second).

Definition total_us (d : timedelta) : Z :=
  days d * us_per_day + seconds d * us_per_second + microseconds d.

(** [a + d] on a datetime and a timedelta. *)
Definition datetime_add (a : datetime) (d : timedelta) : datetime :=
  a + total_us d.

(** [calendar.timegm(d.utctimetuple())]: whole seconds since the epoch. *)
Definition timegm (d : datetime) : Z := d / us_per_second.

(** [n] whole seconds as a span of microseconds. *)
Definition secs (n : Z) : Z := n * us_per_second.

End Datetime.
Export Datetime.

(** ** Exceptions *)

Inductive Exn :=
  | HTTPException (status_code : Z) (detail : string)
  | OperationalError
  | JWTError
  | TypeError.

Definition status_of (e : Exn) : option Z :=
  match e with
  | HTTPException c _ => Some c
  | _ => None
  end.

Definition HTTP_400_BAD_REQUEST : Z := 400.
Definition HTTP_401_UNAUTHORIZED : Z := 401.
Definition HTTP_403_FORBIDDEN : Z := 403.
Definition HTTP_404_NOT_FOUND : Z := 404.
Definition HTTP_429_TOO_MANY_REQUESTS : Z := 429.
Definition HTTP_500_INTERNAL_SERVER_ERROR : Z := 500.

(** The errors of the spec's taxonomy, as the code raises them. *)
Definition AccountLocked : Exn :=
  HTTPException HTTP_429_TOO_MANY_REQUESTS
    "Account locked: Too many failed attempts. Try again later.".

Definition InvalidPin : Exn :=
  HTTPException HTTP_401_UNAUTHORIZED
    "Invalid PIN: Please check your PIN and try again".

Definition IssuanceExhausted : Exn :=
  HTTPException HTTP_500_INTERNAL_SERVER_ERROR
    "Could not generate unique PIN".

Definition MissingCredential : Exn :=
  HTTPException HTTP_401_UNAUTHORIZED "Missing authorization header".

Definition credentials_exception : Exn :=
  HTTPException HTTP_401_UNAUTHORIZED "Could not validate credentials".

Inductive Result (A : Type) :=
  | Return (a : A)
  | Raise (e : Exn).
Arguments Return {A} a.
Arguments Raise {A} e.

(** ** The [User] table and the session *)

Record User := mk_User {
  id : Z;                 (* primary key, assigned by the store on insert *)
  full_name : string;
  pin_code : string;
  role : string;
  created_at : datetime
}.

(** The [select] statements the code builds, by their [where] clause. *)
Inductive Select :=
  | WhereName (name : string)                (* full_name == name *)
  | WhereNameIlike (pattern : string)        (* full_name.ilike(pattern) *)
  | WhereNameAndPin (name pin : string).     (* (full_name == name) & (pin_code == pin) *)

Inductive Statement :=
  | Exec (q : Select)
  | Get (user_id : Z)
  | Insert (u : User)
  | Delete (user_id : Z).

Record Session := mk_Session {
  users : list User;             (* rows, in the order the store yields them *)
  next_id : Z;                   (* next value of the primary-key sequence *)
  statements : list Statement    (* what was sent to the store, latest first *)
}.

(** ** Case-insensitive pattern match: [ILIKE]

    [%] matches any run of characters, [_] any one character and a
    backslash takes the next pattern character literally.  Letters are
    folded over ASCII; a pattern that ends in a lone backslash (for which
    PostgreSQL reports an error when the match reaches it) matches
    nothing. *)

Definition lower (c : ascii) : ascii :=
  let n := nat_of_ascii c in
  if ((65 <=? n) && (n <=? 90))%nat then ascii_of_nat (n + 32) else c.

Definition ascii_ieq (a b : ascii) : bool := Ascii.eqb (lower a) (lower b).

Fixpoint like_ci (p s : string) {struct p} : bool :=
  match p with
  | EmptyString => match s with EmptyString => true | _ => false end
  | String c p' =>
      if Ascii.eqb c "%"%char then
        (fix skip (s : string) : bool :=
           like_ci p' s ||
           match s with
           | EmptyString => false
           | String _ s' => skip s'
           end) s
      else if Ascii.eqb c "_"%char then
        match s with
        | EmptyString => false
        | String _ s' => like_ci p' s'
        end
      else if Ascii.eqb c "\"%char then
        match p' with
        | EmptyString => false
        | String e p'' =>
            match s with
            | EmptyString => false
            | String d s' => ascii_ieq e d && like_ci p'' s'
            end
        end
      else
        match s with
        | EmptyString => false
        | String d s' => ascii_ieq c d && like_ci p' s'
        end
  end.

(** [column.ilike(pattern)]. *)
Definition ilike (column pattern : string) : bool := like_ci pattern column.

Definition where_ (q : Select) (u : User) : bool :=
  match q with
  | WhereName name => String.eqb (full_name u) name
  | WhereNameIlike pattern => ilike (full_name u) pattern
  | WhereNameAndPin name pin =>
      String.eqb (full_name u) name && String.eqb (pin_code u) pin
  end.

(** ** The world and the monad *)

Record World := mk_World {
  failed_attempts : gmap string (Z * datetime);
  session : Session
}.

Definition M (A : Type) : Type := World -> Result A * World.

Definition ret {A} (a : A) : M A := fun w => (Return a, w).

Definition bind {A B} (m : M A) (k : A -> M B) : M B :=
  fun w =>
    match m w with
    | (Return a, w') => k a w'
    | (Raise e, w') => (Raise e, w')
    end.

Definition raise {A} (e : Exn) : M A := fun w => (Raise e, w).

Notation "'let!' x ':=' c 'in' k" := (bind c (fun x => k))
  (at level 10, x name, c at level 200, k at level 200).
Notation "'do!' c 'in' k" := (bind c (fun _ => k))
  (at level 10, c at level 200, k at level 200).

Definition get_failed : M (gmap string (Z * datetime)) :=
  fun w => (Return (failed_attempts w), w).

Definition set_failed (fa : gmap string (Z * datetime)) : M unit :=
  fun w => (Return tt, {| failed_attempts := fa; session := session w |}).

Definition log_statement (st : Statement) (s : Session) : Session :=
  {| users := users s; next_id := next_id s;
     statements := st :: statements s |}.

(** [session.exec(select(User).where(q)).first()]. *)
Definition exec_first (q : Select) : M (option User) :=
  fun w =>
    (Return (List.find (where_ q) (users (session w))),
     {| failed_attempts := failed_attempts w;
        session := log_statement (Exec q) (session w) |}).

(** [session.get(User, user_id)]. *)
Definition session_get (user_id : Z) : M (option User) :=
  fun w =>
    (Return (List.find (fun u => (id u =? user_id)%Z) (users (session w))),
     {| failed_attempts := failed_attempts w;
        session := log_statement (Get user_id) (session w) |}).

(** [session.add(User(...)); session.commit()]: the row gets the next
    primary key and is appended to the table. *)
Definition session_add (name pin role_ : string) (now : datetime) : M User :=
  fun w =>
    let s := session w in
    let u := {| id := next_id s; full_name := name; pin_code := pin;
                role := role_; created_at := now |} in
    (Return u,
     {| failed_attempts := failed_attempts w;
        session := {| users := users s ++ [u];
                      next_id := next_id s + 1;
                      statements := Insert u :: statements s |} |}).

(** [session.refresh(user)]: the row is read again by its primary key;
    nothing has changed it since the commit, so the object keeps its
    values. *)
Definition session_refresh (u : User) : M User :=
  fun w =>
    (Return u,
     {| failed_attempts := failed_attempts w;
        session := log_statement (Get (id u)) (session w) |}).

(** [session.delete(user); session.commit()]. *)
Definition session_delete (u : User) : M unit :=
  fun w =>
    let s := session w in
    (Return tt,
     {| failed_attempts := failed_attempts w;
        session := {| users := List.filter (fun v => negb (id v =? id u)%Z) (users s);
                      next_id := next_id s;
                      statements := Delete (id u) :: statements s |} |}).

(** ** [auth.py]: the lockout tracker and PIN verification *)

Definition LOCKOUT_THRESHOLD : Z := 3.
Definition LOCKOUT_SECONDS : Z := 1800.

(** [now] is the value of [datetime.utcnow()] in the comparison with
    [lock_time]. *)
Definition check_failed_attempts (now : datetime) (name : string) : M unit :=
  let! fa := get_failed in
  match fa !! name with
  | Some (attempts, lock_time) =>
      if LOCKOUT_THRESHOLD <=? attempts then
        if seconds (datetime_sub now lock_time) <? LOCKOUT_SECONDS then
          raise AccountLocked
        else
          set_failed (delete name fa)
      else ret tt
  | None => ret tt
  end.

(** [now_check] is the clock reading inside [check_failed_attempts],
    [now_fail] the one stored with a failed attempt. *)
Definition verify_pin (now_check now_fail : datetime)
    (name pin : string) : M User :=
  do! check_failed_attempts now_check name in
  let! user := exec_first (WhereNameIlike name) in
  let rejected : M User :=
    let! fa := get_failed in
    do! (match fa !! name with
         | Some (attempts, _) =>
             set_failed (<[name := (attempts + 1, now_fail)]> fa)
         | None => set_failed (<[name := (1, now_fail)]> fa)
         end) in
    raise InvalidPin in
  match user with
  | None => rejected                              (* not user *)
  | Some u =>
      if negb (String.eqb (pin_code u) pin) then  (* user.pin_code != pin_code *)
        rejected
      else
        let! fa := get_failed in
        do! (match fa !! name with
             | Some _ => set_failed (delete name fa)
             | None => ret tt
             end) in
        ret u
  end.

(** ** PIN generation *)

(** [s.zfill(width)]: zeros go after a leading sign. *)
Definition zeros (n : nat) : string := string_of_list_ascii (repeat "0"%char n).

Definition zfill (width : nat) (s : string) : string :=
  let pad := zeros (width - String.length s) in
  match s with
  | String c rest =>
      if Ascii.eqb c "+"%char || Ascii.eqb c "-"%char
      then String c (pad +:+ rest)
      else pad +:+ s
  | EmptyString => pad
  end.

(** [generate_pin()], where [r] is what [random.randint(0, 9999)]
    returned. *)
Definition generate_pin (r : Z) : string := zfill 4 (pretty r).

(** ** [main.py]: registration *)

Definition MAX_PIN_ATTEMPTS : Z := 100.

Record Registration := mk_Registration {
  reg_pin : string;
  reg_user : User
}.

(** The [while existing and attempts < 100] loop.  [remaining] is the
    number of iterations the bound still allows, so that [attempts] is
    [100 - remaining]; [rand k] is the result of the [k]-th call of
    [random.randint] in this request, counted from 0.  The loop returns
    the last PIN and the final value of [attempts]. *)
Fixpoint pin_loop (rand : nat -> Z) (name : string) (remaining : nat)
    (pin : string) (existing : option User) : M (string * Z) :=
  let attempts := MAX_PIN_ATTEMPTS - Z.of_nat remaining in
  match existing, remaining with
  | Some _, S remaining' =>
      let pin' := generate_pin (rand (Z.to_nat attempts + 1)%nat) in
      let! existing' := exec_first (WhereNameAndPin name pin') in
      pin_loop rand name remaining' pin' existing'
  | _, _ => ret (pin, attempts)
  end.

(** [now] is the [created_at] default of the new row. *)
Definition register_user (rand : nat -> Z) (now : datetime)
    (name : string) : M Registration :=
  let pin := generate_pin (rand 0%nat) in
  let! existing := exec_first (WhereNameAndPin name pin) in
  let! r := pin_loop rand name (Z.to_nat MAX_PIN_ATTEMPTS) pin existing in
  let '(pin, attempts) := r in
  if MAX_PIN_ATTEMPTS <=? attempts then
    raise IssuanceExhausted
  else
    let! user := session_add name pin "user" now in
    let! user := session_refresh user in
    ret {| reg_pin := pin; reg_user := user |}.

(** ** [main.py]: start-up *)

Definition max_retries : Z := 10.

(** The connection loop [for attempt in range(max_retries)].  [db_ready k]
    says whether [create_all] succeeds at attempt [k]; the result is
    [Return] when the loop is left by [break] or runs out, and [Raise]
    when the last attempt re-raises. *)
Fixpoint connect_loop (db_ready : nat -> bool) (attempts : list nat) : M unit :=
  match attempts with
  | [] => ret tt
  | attempt :: rest =>
      if db_ready attempt then ret tt
      else if Z.of_nat attempt <? max_retries - 1
           then connect_loop db_ready rest
           else raise OperationalError
  end.

Definition lifespan (db_ready : nat -> bool) (now : datetime) : M unit :=
  do! connect_loop db_ready (seq 0 (Z.to_nat max_retries)) in
  let! admin := exec_first (WhereName "Abiel Robinson") in
  match admin with
  | Some _ => ret tt
  | None =>
      do! session_add "Abiel Robinson" "0000" "admin" now in
      ret tt
  end.

(** ** Session tokens

    The token library is outside the repository.  A token is kept as the
    structure its compact form serialises: the header's algorithm, the
    JSON claims and the signature.  The keyed hash is a parameter of the
    development: nothing below depends on which function it is. *)

(** Values of a Python dict handed to the encoder. *)
Inductive PyVal :=
  | PNone
  | PStr (s : string)
  | PInt (n : Z)
  | PDatetime (d : datetime).

(** Values of a decoded JSON payload. *)
Inductive Json :=
  | JNull
  | JStr (s : string)
  | JInt (n : Z).

(** [json.dumps] on one value; a [datetime] is not serialisable. *)
Definition to_json (v : PyVal) : option Json :=
  match v with
  | PNone => Some JNull
  | PStr s => Some (JStr s)
  | PInt n => Some (JInt n)
  | PDatetime _ => None
  end.

Record Token := mk_Token {
  tok_alg : string;
  tok_claims : gmap string Json;
  tok_signature : string
}.

Record UserResponse := mk_UserResponse {
  ur_id : Z;
  ur_full_name : string;
  ur_role : string;
  ur_created_at : datetime
}.

Record TokenResponse := mk_TokenResponse {
  access_token : Token;
  token_type : string;
  user : UserResponse
}.

Definition SECRET_KEY : string := "your-secret-key-change-in-production".
Definition ALGORITHM : string := "HS256".
Definition ACCESS_TOKEN_EXPIRE_HOURS : Z := 24.

Section Tokens.

(** [hmac_sha256 key (alg, claims)]: the signature over the header and
    the payload. *)
Variable hmac_sha256 : string -> string * gmap string Json -> string.

(** A [datetime] under a time claim becomes whole seconds. *)
Definition to_intdate (k : string) (claims : gmap string PyVal)
    : gmap string PyVal :=
  match claims !! k with
  | Some (PDatetime d) => <[k := PInt (timegm d)]> claims
  | _ => claims
  end.

(** [jwt.encode(claims, key, algorithm=algorithm)]. *)
Definition jwt_encode (claims : gmap string PyVal) (key algorithm : string)
    : Result Token :=
  let claims := to_intdate "nbf" (to_intdate "iat" (to_intdate "exp" claims)) in
  if bool_decide (map_Forall (fun _ v => is_Some (to_json v)) claims) then
    let payload := omap to_json claims in
    Return {| tok_alg := algorithm;
              tok_claims := payload;
              tok_signature := hmac_sha256 key (algorithm, payload) |}
  else Raise TypeError.

(** The checks of the registered claims that [jwt.decode] makes with
    its default options, no audience, issuer, subject or access token
    being passed.  [now_s] is the current time in whole seconds.  The
    library converts a time claim with [int()]; the model covers the time
    claims that are JSON integers, which are those of every token this
    program issues, and refuses any other one (for a null claim the
    library's conversion fails with another exception, and it accepts a
    string that writes a number). *)
Definition valid_iat (claims : gmap string Json) : bool :=
  match claims !! "iat" with
  | None | Some (JInt _) => true
  | Some _ => false
  end.

Definition valid_nbf (now_s : Z) (claims : gmap string Json) : bool :=
  match claims !! "nbf" with
  | None => true
  | Some (JInt nbf) => negb (now_s <? nbf)
  | Some _ => false
  end.

Definition valid_exp (now_s : Z) (claims : gmap string Json) : bool :=
  match claims !! "exp" with
  | None => true
  | Some (JInt exp) => negb (exp <? now_s)
  | Some _ => false
  end.

Definition valid_aud (claims : gmap string Json) : bool :=
  match claims !! "aud" with
  | None => true
  | Some _ => false
  end.

Definition valid_sub (claims : gmap string Json) : bool :=
  match claims !! "sub" with
  | None | Some (JStr _) => true
  | Some _ => false
  end.

Definition valid_jti (claims : gmap string Json) : bool :=
  match claims !! "jti" with
  | None | Some (JStr _) => true
  | Some _ => false
  end.

Definition valid_at_hash (claims : gmap string Json) : bool :=
  match claims !! "at_hash" with
  | None => true
  | Some _ => false
  end.

Definition validate_claims (now_s : Z) (claims : gmap string Json) : bool :=
  valid_iat claims && valid_nbf now_s claims && valid_exp now_s claims
  && valid_aud claims && valid_sub claims && valid_jti claims
  && valid_at_hash claims.

(** [jwt.decode(token, key, algorithms=algorithms)] at time [now];
    every failure is a [JWTError]. *)
Definition jwt_decode (token : Token) (key : string)
    (algorithms : list string) (now : datetime)
    : Result (gmap string Json) :=
  if negb (existsb (String.eqb (tok_alg token)) algorithms) then
    Raise JWTError
  else if negb (String.eqb (tok_signature token)
                  (hmac_sha256 key (tok_alg token, tok_claims token))) then
    Raise JWTError
  else if negb (validate_claims (timegm now) (tok_claims token)) then
    Raise JWTError
  else Return (tok_claims token).

(** [now] is the clock reading from which the expiry is counted. *)
Definition create_access_token (now : datetime) (data : gmap string PyVal)
    : Result Token :=
  let to_encode := data in
  let expire := datetime_add now (hours ACCESS_TOKEN_EXPIRE_HOURS) in
  let to_encode :=
    <["sub" := default PNone (data !! "full_name")]>
      (<["exp" := PDatetime expire]> to_encode) in
  jwt_encode to_encode SECRET_KEY ALGORITHM.

(** The dict that [login_user] and [admin_login] pass. *)
Definition token_data (name role_ : string) (user_id : Z)
    : gmap string PyVal :=
  <["full_name" := PStr name]>
    (<["role" := PStr role_]> (<["user_id" := PInt user_id]> ∅)).

(** [credentials] is [None] when the request has no bearer header;
    [now] is the time at which the token is decoded. *)
Definition get_current_user (credentials : option Token) (now : datetime)
    : M User :=
  match credentials with
  | None => raise MissingCredential
  | Some token =>
      match jwt_decode token SECRET_KEY [ALGORITHM] now with
      | Raise _ => raise credentials_exception
      | Return payload =>
          match payload !! "sub" with
          | Some (JStr name) =>
              let! user := exec_first (WhereName name) in
              match user with
              | None => raise credentials_exception
              | Some u => ret u
              end
          | _ => raise credentials_exception
          end
      end
  end.

Definition lift_result {A} (r : Result A) : M A :=
  match r with
  | Return a => ret a
  | Raise e => raise e
  end.

Definition user_response (u : User) : UserResponse :=
  {| ur_id := id u; ur_full_name := full_name u; ur_role := role u;
     ur_created_at := created_at u |}.

Definition login_user (now_check now_fail now_token : datetime)
    (name pin : string) : M TokenResponse :=
  let! u := verify_pin now_check now_fail name pin in
  let! token := lift_result
    (create_access_token now_token (token_data (full_name u) (role u) (id u))) in
  ret {| access_token := token; token_type := "bearer";
         user := user_response u |}.

Definition admin_login (now_check now_fail now_token : datetime)
    (name pin : string) : M TokenResponse :=
  let! u := verify_pin now_check now_fail name pin in
  if negb (String.eqb (role u) "admin") then
    raise (HTTPException HTTP_403_FORBIDDEN "Admin access required")
  else
    let! token := lift_result
      (create_access_token now_token (token_data (full_name u) (role u) (id u))) in
    ret {| access_token := token; token_type := "bearer";
           user := user_response u |}.

(** [DELETE /admin/users/{user_id}]; the dependency [get_current_user]
    runs before the body. *)
Definition delete_user (user_id : Z) (credentials : option Token)
    (now : datetime) : M unit :=
  let! current_user := get_current_user credentials now in
  if negb (String.eqb (role current_user) "admin") then
    raise (HTTPException HTTP_403_FORBIDDEN "Admin access required")
  else
    let! found := session_get user_id in
    match found with
    | None => raise (HTTPException HTTP_404_NOT_FOUND "User not found")
    | Some u =>
        if id u =? id current_user then
          raise (HTTPException HTTP_400_BAD_REQUEST
                   "Cannot delete your own account")
        else
          do! session_delete u in
          ret tt
    end.

End Tokens.

(** ** What one call does to the dict *)

(** The lockout test of [check_failed_attempts]. *)
Definition locked (now : datetime) (name : string)
    (fa : gmap string (Z * datetime)) : bool :=
  match fa !! name with
  | Some (attempts, lock_time) =>
      (LOCKOUT_THRESHOLD <=? attempts)
      && (seconds (datetime_sub now lock_time) <? LOCKOUT_SECONDS)
  | None => false
  end.

(** The dict after a check that did not raise. *)
Definition after_check (name : string) (fa : gmap string (Z * datetime))
    : gmap string (Z * datetime) :=
  match fa !! name with
  | Some (attempts, _) =>
      if LOCKOUT_THRESHOLD <=? attempts then delete name fa else fa
  | None => fa
  end.

(** The dict after a failed attempt was recorded at time [t]. *)
Definition after_failure (t : datetime) (name : string)
    (fa : gmap string (Z * datetime)) : gmap string (Z * datetime) :=
  <[name := (match fa !! name with
             | Some (attempts, _) => attempts + 1
             | None => 1
             end, t)]> fa.

Definition with_failed (fa : gmap string (Z * datetime)) (w : World) : World :=
  {| failed_attempts := fa; session := session w |}.

Definition with_statement (st : Statement) (w : World) : World :=
  {| failed_attempts := failed_attempts w;
     session := log_statement st (session w) |}.

(** ** Stores and worlds used in the examples *)

Definition ada : User :=
  {| id := 1; full_name := "Ada Lovelace"; pin_code := "1234";
     role := "user"; created_at := 0 |}.

Definition store_ada : Session :=
  {| users := [ada]; next_id := 2; statements := [] |}.

Definition store_empty : Session :=
  {| users := []; next_id := 1; statements := [] |}.

Definition world_of (fa : gmap string (Z * datetime)) (s : Session) : World :=
  {| failed_attempts := fa; session := s |}.

(** A keyed function to sign the example tokens with. *)
Definition mac_example (key : string) (input : string * gmap string Json)
    : string :=
  key +:+ "." +:+ fst input.

(** The payload of a token issued at [now] for the given identity. *)
Definition issued_claims (now : datetime) (name role_ : string) (user_id : Z)
    : gmap string Json :=
  <["sub" := JStr name]>
    (<["exp" := JInt (timegm (datetime_add now (hours ACCESS_TOKEN_EXPIRE_HOURS)))]>
       (<["full_name" := JStr name]>
          (<["role" := JStr role_]> (<["user_id" := JInt user_id]> ∅)))).

(** ** Notions used to state the properties of registration *)

(** Some row of the store has this name and this PIN. *)
Definition taken (s : Session) (name pin : string) : bool :=
  match List.find (where_ (WhereNameAndPin name pin)) (users s) with
  | Some _ => true
  | None => false
  end.

(** No two rows share both the name and the PIN. *)
Definition unique_name_pin (s : Session) : Prop :=
  NoDup (List.map (fun u => (full_name u, pin_code u)) (users s)).

(** The table, the key sequence and the dict are the same in both worlds;
    the log of statements may have grown. *)
Definition same_store (w w' : World) : Prop :=
  users (session w') = users (session w)
  /\ next_id (session w') = next_id (session w)
  /\ failed_attempts w' = failed_attempts w.

(** One registration request: its random draws, its clock reading and the
    name it asks for. *)
Record RegisterCall := mk_RegisterCall {
  call_rand : nat -> Z;
  call_now : datetime;
  call_name : string
}.

(** A sequence of [register_user] calls, one after the other; the result
    of each call goes to its caller and the world goes on. *)
Definition register_all (calls : list RegisterCall) (w : World) : World :=
  fold_left
    (fun w c => snd (register_user (call_rand c) (call_now c) (call_name c) w))
    calls w.

(** Draws that collide with Ada's PIN 100 times and then give 1. *)
Definition rand_hundred_collisions (k : nat) : Z :=
  if (k <? 100)%nat then 1234 else 1.

(** ** The life of the application

    The process starts with [lifespan], then serves requests until it
    stops; the dict of failed attempts lives in the process and is empty
    at each start.  Of the endpoints, those that read or write the [User]
    table are kept; the review endpoints do not touch it. *)

Definition DEFAULT_ADMIN_NAME : string := "Abiel Robinson".
Definition DEFAULT_ADMIN_PIN : string := "0000".

Definition is_default_admin (u : User) : bool :=
  String.eqb (full_name u) DEFAULT_ADMIN_NAME
  && String.eqb (pin_code u) DEFAULT_ADMIN_PIN
  && String.eqb (role u) "admin".

(** The store holds an admin identity with the fixed name and PIN. *)
Definition has_default_admin (s : Session) : bool :=
  existsb is_default_admin (users s).

(** The store holds an identity with this name. *)
Definition has_name (s : Session) (name : string) : bool :=
  existsb (fun u => String.eqb (full_name u) name) (users s).

Inductive Request :=
  | ReqRegister (rand : nat -> Z) (now : datetime) (name : string)
  | ReqLogin (now_check now_fail now_token : datetime) (name pin : string)
  | ReqAdminLogin (now_check now_fail now_token : datetime) (name pin : string)
  | ReqDeleteUser (user_id : Z) (credentials : option Token) (now : datetime).

Inductive Event :=
  | Start (db_ready : nat -> bool) (now : datetime)
  | Handle (r : Request)
  | Stop.

Record System := mk_System {
  world : World;
  up : bool
}.

Definition initial : System :=
  {| world := {| failed_attempts := ∅; session := store_empty |};
     up := false |}.

Section Lifecycle.

Variable hmac_sha256 : string -> string * gmap string Json -> string.

Definition handle (r : Request) (w : World) : World :=
  match r with
  | ReqRegister rand now name => snd (register_user rand now name w)
  | ReqLogin c f t name pin =>
      snd (login_user hmac_sha256 c f t name pin w)
  | ReqAdminLogin c f t name pin =>
      snd (admin_login hmac_sha256 c f t name pin w)
  | ReqDeleteUser user_id credentials now =>
      snd (delete_user hmac_sha256 user_id credentials now w)
  end.

Definition step (sys : System) (e : Event) : System :=
  match e with
  | Start db_ready now =>
      if up sys then sys
      else
        match lifespan db_ready now
                {| failed_attempts := ∅; session := session (world sys) |}
        with
        | (Return _, w') => {| world := w'; up := true |}
        | (Raise _, w') => {| world := w'; up := false |}
        end
  | Handle r =>
      if up sys then {| world := handle r (world sys); up := true |}
      else sys
  | Stop => {| world := world sys; up := false |}
  end.

Definition run (events : list Event) (sys : System) : System :=
  fold_left step events sys.

End Lifecycle.

(** Every row with the admin role is a default admin. *)
Definition admins_are_default (l : list User) : Prop :=
  forall u, In u l -> role u = "admin" -> is_default_admin u = true.

(** A change of the table that keeps both facts. *)
Definition keeps_admin (l l' : list User) : Prop :=
  admins_are_default l ->
  admins_are_default l'
  /\ (existsb is_default_admin l = true -> existsb is_default_admin l' = true).

(** What holds of the system at every moment of every run. *)
Definition system_invariant (sys : System) : Prop :=
  admins_are_default (users (session (world sys)))
  /\ (has_default_admin (session (world sys)) = true
      \/ (up sys = false /\ users (session (world sys)) = [])).

(** A store in which the fixed name belongs to an ordinary user. *)
Definition store_namesake : Session :=
  {| users := [ {| id := 1; full_name := "Abiel Robinson"; pin_code := "4821";
                   role := "user"; created_at := 0 |} ];
     next_id := 2; statements := [] |}.

(** ** Notions used to state the properties of PINs *)

Definition is_digit (c : ascii) : bool :=
  let n := nat_of_ascii c in ((48 <=? n) && (n <=? 57))%nat.

(** Exactly four characters, all of them decimal digits. *)
Definition four_digits (s : string) : bool :=
  (String.length s =? 4)%nat && forallb is_digit (list_ascii_of_string s).

(** The number a string of digits writes. *)
Definition pin_value (s : string) : Z :=
  fold_left (fun acc c => 10 * acc + (Z.of_nat (nat_of_ascii c) - 48))
    (list_ascii_of_string s) 0.


(** The token that a login issues at [now] for the row [u]. *)
Definition issued_token
    (hmac_sha256 : string -> string * gmap string Json -> string)
    (now : datetime) (u : User) : Token :=
  {| tok_alg := ALGORITHM;
     tok_claims := issued_claims now (full_name u) (role u) (id u);
     tok_signature :=
       hmac_sha256 SECRET_KEY
         (ALGORITHM, issued_claims now (full_name u) (role u) (id u)) |}.

(** The row that start-up creates at time 1 s on an empty store, and a
    run in which a user registers and the admin then deletes that user. *)
Definition root : User :=
  {| id := 1; full_name := "Abiel Robinson"; pin_code := "0000";
     role := "admin"; created_at := secs 1 |}.

Definition events_register_delete : list Event :=
  [ Start (fun _ => true) (secs 1);
    Handle (ReqRegister (fun _ => 42) (secs 2) "Ada Lovelace");
    Handle (ReqDeleteUser 2 (Some (issued_token mac_example (secs 3) root))
              (secs 4)) ].

(** ** [models.py] and [main.py]: reviews

    The review endpoints receive the caller as the argument
    [current_user], which the framework obtains from [get_current_user]
    before the body runs.  They work on the [Review] table, kept here
    beside the [User] table that the listing joins it with. *)

Inductive Genre :=
  | FICTION | NON_FICTION | MYSTERY | ROMANCE | SCIENCE_FICTION
  | FANTASY | BIOGRAPHY | HISTORY | SELF_HELP | YOUNG_ADULT.

(** The string value of a member of the enumeration. *)
Definition genre_value (g : Genre) : string :=
  match g with
  | FICTION => "Fiction"
  | NON_FICTION => "Non-Fiction"
  | MYSTERY => "Mystery"
  | ROMANCE => "Romance"
  | SCIENCE_FICTION => "Science Fiction"
  | FANTASY => "Fantasy"
  | BIOGRAPHY => "Biography"
  | HISTORY => "History"
  | SELF_HELP => "Self-Help"
  | YOUNG_ADULT => "Young Adult"
  end.

Definition genre_eqb (g h : Genre) : bool :=
  String.eqb (genre_value g) (genre_value h).

Record Review := mk_Review {
  review_id : Z;               (* [id], the primary key *)
  user_id : Z;
  book_title : string;
  author : string;
  rating : Z;
  review_text : string;
  genre : Genre;
  is_archived : bool;
  review_created_at : datetime;
  updated_at : datetime
}.

Record ReviewResponse := mk_ReviewResponse {
  rr_id : Z;
  rr_user_id : Z;
  rr_book_title : string;
  rr_author : string;
  rr_rating : Z;
  rr_review_text : string;
  rr_genre : string;
  rr_created_at : datetime;
  rr_updated_at : datetime;
  rr_user_name : string
}.

Record Tables := mk_Tables {
  user_rows : list User;
  review_rows : list Review
}.

(** An exception of the application, or the error with which the store
    refuses a statement. *)
Inductive DbExn :=
  | App (e : Exn)
  | DataError.

(** [select(Review, User.full_name).join(User)]: every review with the
    name of each user row whose key is the review's [user_id]. *)
Definition review_join (t : Tables) : list (Review * string) :=
  flat_map
    (fun r =>
       List.map (fun u => (r, full_name u))
         (List.filter (fun u => id u =? user_id r) (user_rows t)))
    (review_rows t).

(** The [where] clause of the search: the text, between two [%], as a
    pattern for the title, the author or the review text. *)
Definition search_matches (search : string) (r : Review) : bool :=
  let pattern := "%" +:+ search +:+ "%" in
  ilike (book_title r) pattern
  || ilike (author r) pattern
  || ilike (review_text r) pattern.

Definition review_response (r : Review) (user_name : string) : ReviewResponse :=
  {| rr_id := review_id r; rr_user_id := user_id r;
     rr_book_title := book_title r; rr_author := author r;
     rr_rating := rating r; rr_review_text := review_text r;
     rr_genre := genre_value (genre r);
     rr_created_at := review_created_at r; rr_updated_at := updated_at r;
     rr_user_name := user_name |}.

(** The conjunction of the [where] clauses that [get_reviews] adds. *)
Definition review_visible (search : option string) (genre_ : option Genre)
    (rating_ : option Z) (my_reviews : bool) (current_user : User)
    (r : Review) : bool :=
  (if negb (String.eqb (role current_user) "admin")
   then negb (is_archived r) else true)
  && (if my_reviews then user_id r =? id current_user else true)
  && (match search with
      | Some text =>
          if String.eqb text "" then true else search_matches text r
      | None => true
      end)
  && (match genre_ with
      | Some g => genre_eqb (genre r) g
      | None => true
      end)
  && (match rating_ with
      | Some n => if n =? 0 then true else rating r =? n
      | None => true
      end).

(** [GET /reviews].  A negative [skip] or [limit] makes the store refuse
    the statement. *)
Definition get_reviews (skip limit : Z) (search : option string)
    (genre_ : option Genre) (rating_ : option Z) (my_reviews : bool)
    (current_user : User) (t : Tables) : DbExn + list ReviewResponse :=
  if (skip <? 0) || (limit <? 0) then inl DataError
  else
    let rows :=
      List.filter
        (fun row => review_visible search genre_ rating_ my_reviews
                      current_user (fst row))
        (review_join t) in
    let results := firstn (Z.to_nat limit) (skipn (Z.to_nat skip) rows) in
    inr (List.map (fun row => review_response (fst row) (snd row)) results).

(** [session.get(Review, review_id)]. *)
Definition get_review (rid : Z) (t : Tables) : option Review :=
  List.find (fun r => review_id r =? rid) (review_rows t).

(** [DELETE /reviews/{review_id}]. *)
Definition delete_review (rid : Z) (current_user : User) (t : Tables)
    : Result unit * Tables :=
  match get_review rid t with
  | None => (Raise (HTTPException HTTP_404_NOT_FOUND "Review not found"), t)
  | Some review =>
      if negb (user_id review =? id current_user)
         && negb (String.eqb (role current_user) "admin")
      then
        (Raise (HTTPException HTTP_403_FORBIDDEN
                  "Access denied: You can only delete your own reviews"), t)
      else
        (Return tt,
         {| user_rows := user_rows t;
            review_rows :=
              List.filter (fun r => negb (review_id r =? review_id review))
                (review_rows t) |})
  end.

Definition archived_at (now : datetime) (r : Review) : Review :=
  {| review_id := review_id r; user_id := user_id r;
     book_title := book_title r; author := author r; rating := rating r;
     review_text := review_text r; genre := genre r;
     is_archived := true;
     review_created_at := review_created_at r; updated_at := now |}.

(** [POST /admin/reviews/{review_id}/archive]; [now] is the clock reading
    stored in [updated_at]. *)
Definition archive_review (now : datetime) (rid : Z) (current_user : User)
    (t : Tables) : Result unit * Tables :=
  if negb (String.eqb (role current_user) "admin") then
    (Raise (HTTPException HTTP_403_FORBIDDEN "Admin access required"), t)
  else
    match get_review rid t with
    | None => (Raise (HTTPException HTTP_404_NOT_FOUND "Review not found"), t)
    | Some review =>
        (Return tt,
         {| user_rows := user_rows t;
            review_rows :=
              List.map
                (fun r => if review_id r =? review_id review
                          then archived_at now r else r)
                (review_rows t) |})
    end.

(** Two users, an ordinary one and an admin, and three reviews. *)
Definition grace : User :=
  {| id := 3; full_name := "Grace Hopper"; pin_code := "4321";
     role := "user"; created_at := 0 |}.

Definition review_1 : Review :=
  {| review_id := 1; user_id := 1; book_title := "Sketch of the Engine";
     author := "Menabrea"; rating := 5; review_text := "Notes included";
     genre := NON_FICTION; is_archived := false;
     review_created_at := secs 10; updated_at := secs 10 |}.

Definition review_2 : Review :=
  {| review_id := 2; user_id := 3; book_title := "Compilers";
     author := "Aho"; rating := 4; review_text := "The dragon book";
     genre := NON_FICTION; is_archived := true;
     review_created_at := secs 20; updated_at := secs 30 |}.

Definition review_3 : Review :=
  {| review_id := 3; user_id := 3; book_title := "Frankenstein";
     author := "Shelley"; rating := 5; review_text := "A classic";
     genre := FICTION; is_archived := false;
     review_created_at := secs 40; updated_at := secs 40 |}.

Definition tables_example : Tables :=
  {| user_rows := [ada; {| id := 2; full_name := "Abiel Robinson";
                            pin_code := "0000"; role := "admin";
                            created_at := 0 |}; grace];
     review_rows := [review_1; review_2; review_3] |}.

(** The four decimal digits of a number below 10000, as characters. *)
Definition pin_digits (n : N) : string :=
  String (pretty_N_char (n / 1000 mod 10)%N)
    (String (pretty_N_char (n / 100 mod 10)%N)
       (String (pretty_N_char (n / 10 mod 10)%N)
          (String (pretty_N_char (n mod 10)%N) ""))).

(** ** What the store accepts as text and as a pattern

    The store refuses a text that holds a NUL character.  It also refuses
    an [ILIKE] pattern when the match comes to a backslash that nothing
    follows; this happens for no row when every backslash of the pattern,
    read from the left, has a character after it. *)

Definition no_nul (s : string) : bool :=
  forallb (fun c => negb (Ascii.eqb c "000"%char)) (list_ascii_of_string s).

Fixpoint escapes_closed (p : string) : bool :=
  match p with
  | EmptyString => true
  | String c p' =>
      if Ascii.eqb c "\"%char then
        match p' with
        | EmptyString => false
        | String _ p'' => escapes_closed p''
        end
      else escapes_closed p'
  end.

Definition accepted_pattern (p : string) : bool :=
  no_nul p && escapes_closed p.




(** * Properties *)

(** ** Arithmetic of [timedelta] *)

Lemma seconds_small (now t : datetime) :
  0 <= now - t < secs LOCKOUT_SECONDS ->
  seconds (datetime_sub now t) < LOCKOUT_SECONDS.
Proof.
  unfold secs, LOCKOUT_SECONDS, datetime_sub, timedelta_of_us, us_per_day,
    us_per_second; simpl.
  intros H.
  rewrite Z.mod_small by lia.
  apply Z.div_lt_upper_bound; lia.
Qed.

(** The [seconds] field leaves whole days out. *)
Lemma seconds_drops_days (now t : datetime) (d : Z) :
  seconds (datetime_sub (now + d * us_per_day) t) = seconds (datetime_sub now t).
Proof.
  unfold datetime_sub, timedelta_of_us; simpl.
  replace (now + d * us_per_day - t) with (now - t + d * us_per_day) by lia.
  rewrite Z.mod_add; [reflexivity | unfold us_per_day, us_per_second; lia].
Qed.

(** ** One call of the tracker *)

Lemma world_eta (w : World) :
  {| failed_attempts := failed_attempts w; session := session w |} = w.
Proof. destruct w; reflexivity. Qed.

Lemma check_failed_attempts_run (now : datetime) (name : string) (w : World) :
  check_failed_attempts now name w =
  if locked now name (failed_attempts w)
  then (Raise AccountLocked, w)
  else (Return tt, with_failed (after_check name (failed_attempts w)) w).
Proof.
  unfold check_failed_attempts, locked, after_check, bind, get_failed,
    set_failed, raise, ret, with_failed.
  destruct (failed_attempts w !! name) as [[attempts lock_time]|] eqn:E;
    [|simpl; by rewrite world_eta].
  destruct (LOCKOUT_THRESHOLD <=? attempts);
    [|simpl; by rewrite world_eta].
  destruct (seconds (datetime_sub now lock_time) <? LOCKOUT_SECONDS);
    reflexivity.
Qed.

Lemma verify_pin_run (now_check now_fail : datetime) (name pin : string)
    (w : World) :
  verify_pin now_check now_fail name pin w =
  if locked now_check name (failed_attempts w) then (Raise AccountLocked, w)
  else
    let fa := after_check name (failed_attempts w) in
    let w1 := with_statement (Exec (WhereNameIlike name)) w in
    match List.find (where_ (WhereNameIlike name)) (users (session w)) with
    | Some u =>
        if String.eqb (pin_code u) pin
        then (Return u, with_failed (delete name fa) w1)
        else (Raise InvalidPin, with_failed (after_failure now_fail name fa) w1)
    | None => (Raise InvalidPin, with_failed (after_failure now_fail name fa) w1)
    end.
Proof.
  unfold verify_pin, bind at 1.
  rewrite check_failed_attempts_run.
  destruct (locked now_check name (failed_attempts w)); [reflexivity|].
  cbv zeta.
  set (fa := after_check name (failed_attempts w)).
  unfold bind, exec_first, get_failed, set_failed, raise, ret, with_failed,
    with_statement, after_failure; simpl.
  destruct (List.find _ _) as [u|]; simpl.
  - destruct (String.eqb (pin_code u) pin); simpl.
    + destruct (fa !! name) as [[a t]|] eqn:E; simpl; [reflexivity|].
      rewrite delete_id by exact E. reflexivity.
    + destruct (fa !! name) as [[a t]|]; reflexivity.
  - destruct (fa !! name) as [[a t]|]; reflexivity.
Qed.

Lemma locked_of_record (now : datetime) (name : string)
    (fa : gmap string (Z * datetime)) (attempts : Z) (lock_time : datetime) :
  fa !! name = Some (attempts, lock_time) ->
  3 <= attempts ->
  0 <= now - lock_time < secs 1800 ->
  locked now name fa = true.
Proof.
  intros Hrec Hcount Hwin. unfold locked. rewrite Hrec.
  apply andb_true_iff; split.
  - apply Z.leb_le. exact Hcount.
  - apply Z.ltb_lt. apply seconds_small. exact Hwin.
Qed.

Lemma verify_pin_locked (now_check now_fail : datetime) (name pin : string)
    (w : World) (attempts : Z) (lock_time : datetime) :
  failed_attempts w !! name = Some (attempts, lock_time) ->
  3 <= attempts ->
  0 <= now_check - lock_time < secs 1800 ->
  verify_pin now_check now_fail name pin w = (Raise AccountLocked, w).
Proof.
  intros Hrec Hcount Hwin.
  rewrite verify_pin_run.
  by rewrite (locked_of_record _ _ _ _ _ Hrec Hcount Hwin).
Qed.

(** ** The lockout check comes first *)

(** C1. When the record of the attempted name has a count of at least 3
    and its last failure is less than 30 minutes old, [verify_pin] raises
    [AccountLocked] for every PIN, the correct one included, and the world
    is the one it started from: the session has been sent no statement, so
    no row was looked up and no PIN compared. *)
Theorem locked_account_rejected_before_lookup
    (now_check now_fail : datetime) (name pin : string) (w : World)
    (attempts : Z) (lock_time : datetime) :
  failed_attempts w !! name = Some (attempts, lock_time) ->
  3 <= attempts ->
  0 <= now_check - lock_time < secs 1800 ->
  verify_pin now_check now_fail name pin w = (Raise AccountLocked, w)
  /\ statements (session (snd (verify_pin now_check now_fail name pin w)))
     = statements (session w).
Proof.
  intros Hrec Hcount Hwin.
  rewrite (verify_pin_locked _ now_fail _ pin _ _ _ Hrec Hcount Hwin).
  split; reflexivity.
Qed.

Lemma locked_account_rejected_before_lookup_witness :
  let w := world_of {["Ada Lovelace" := (3, 0)]} store_ada in
  (failed_attempts w !! "Ada Lovelace" = Some (3, 0)
   /\ 3 <= 3
   /\ 0 <= secs 60 - 0 < secs 1800)
  /\ verify_pin (secs 60) (secs 61) "Ada Lovelace" "1234" w
     = (Raise AccountLocked, w)
  /\ statements (session (snd (verify_pin (secs 60) (secs 61) "Ada Lovelace"
                                 "1234" w)))
     = statements (session w).
Proof.
  intros w.
  assert (H1 : failed_attempts w !! "Ada Lovelace" = Some (3, 0))
    by reflexivity.
  assert (H2 : 3 <= 3) by lia.
  assert (H3 : 0 <= secs 60 - 0 < secs 1800)
    by (unfold secs, us_per_second; lia).
  split; [auto|].
  exact (locked_account_rejected_before_lookup (secs 60) (secs 61)
           "Ada Lovelace" "1234" w 3 0 H1 H2 H3).
Defined.

(** C9. An attempt that ends in [AccountLocked] leaves the whole world
    as it was: neither the count nor the time stamp of the record is
    touched, and nothing was sent to the store. *)
Theorem locked_attempt_changes_nothing
    (now_check now_fail : datetime) (name pin : string) (w w' : World) :
  verify_pin now_check now_fail name pin w = (Raise AccountLocked, w') ->
  w' = w.
Proof.
  rewrite verify_pin_run.
  destruct (locked now_check name (failed_attempts w)).
  - intros H. by injection H.
  - cbv zeta.
    destruct (List.find _ _) as [u|];
      [destruct (String.eqb (pin_code u) pin)|]; intros H; discriminate H.
Qed.

Lemma locked_attempt_changes_nothing_witness :
  let w := world_of {["Ada Lovelace" := (3, 0)]} store_ada in
  verify_pin (secs 60) (secs 61) "Ada Lovelace" "1234" w
  = (Raise AccountLocked, w)
  /\ w = w.
Proof.
  intros w.
  assert (H : verify_pin (secs 60) (secs 61) "Ada Lovelace" "1234" w
              = (Raise AccountLocked, w))
    by (vm_compute; reflexivity).
  split; [exact H|].
  exact (locked_attempt_changes_nothing (secs 60) (secs 61)
           "Ada Lovelace" "1234" w w H).
Defined.

(** ** The lockout window *)

(** While less than a day has gone by since the last failure, the check
    raises exactly when less than 30 minutes have gone by; otherwise the
    record is deleted and the check returns. *)
Lemma check_failed_attempts_within_a_day
    (now : datetime) (name : string) (w : World)
    (attempts : Z) (lock_time : datetime) :
  failed_attempts w !! name = Some (attempts, lock_time) ->
  3 <= attempts ->
  0 <= now - lock_time < us_per_day ->
  check_failed_attempts now name w =
  if now - lock_time <? secs 1800
  then (Raise AccountLocked, w)
  else (Return tt, with_failed (delete name (failed_attempts w)) w).
Proof.
  intros Hrec Hcount Hday.
  assert (Hsec : (seconds (datetime_sub now lock_time) <? LOCKOUT_SECONDS)
                 = (now - lock_time <? secs 1800)).
  { unfold datetime_sub, timedelta_of_us, LOCKOUT_SECONDS, secs; simpl.
    rewrite Z.mod_small by exact Hday.
    unfold us_per_day, us_per_second in *.
    destruct (Z.ltb_spec (now - lock_time) (1800 * 1000000));
      [apply Z.ltb_lt | apply Z.ltb_ge].
    - apply Z.div_lt_upper_bound; lia.
    - apply Z.div_le_lower_bound; lia. }
  assert (Hthr : (LOCKOUT_THRESHOLD <=? attempts) = true)
    by (apply Z.leb_le; exact Hcount).
  rewrite check_failed_attempts_run. unfold locked, after_check.
  rewrite Hrec, Hthr, Hsec. reflexivity.
Qed.

(** The check after any number of whole days does what it does without
    them. *)
Lemma check_failed_attempts_days_ignored
    (now : datetime) (name : string) (w : World) (d : Z) :
  check_failed_attempts (now + d * us_per_day) name w
  = check_failed_attempts now name w.
Proof.
  rewrite !check_failed_attempts_run. unfold locked.
  destruct (failed_attempts w !! name) as [[attempts lock_time]|];
    [|reflexivity].
  by rewrite seconds_drops_days.
Qed.

(** C2. One day and ten minutes after the third failure, which is more
    than 30 minutes, the check still raises [AccountLocked] and keeps the
    record. *)
Theorem check_failed_attempts_locked_after_a_day :
  let w := world_of {["Ada Lovelace" := (3, 0)]} store_ada in
  let now := secs (86400 + 600) in
  secs 1800 <= now - 0
  /\ check_failed_attempts now "Ada Lovelace" w = (Raise AccountLocked, w)
  /\ failed_attempts w !! "Ada Lovelace" = Some (3, 0).
Proof.
  intros w now. split; [|split].
  - unfold now, secs, us_per_second. lia.
  - rewrite check_failed_attempts_run. reflexivity.
  - reflexivity.
Qed.

(** ** Three failures, then the lock *)

(** A failed attempt that was not locked out leaves [InvalidPin] and the
    record of the name bumped. *)
Lemma verify_pin_raise_inv
    (now_check now_fail : datetime) (name pin : string) (w w' : World)
    (e : Exn) :
  verify_pin now_check now_fail name pin w = (Raise e, w') ->
  locked now_check name (failed_attempts w) = false ->
  e = InvalidPin
  /\ failed_attempts w'
     = after_failure now_fail name (after_check name (failed_attempts w)).
Proof.
  intros Hrun Hfree. rewrite verify_pin_run, Hfree in Hrun. cbv zeta in Hrun.
  destruct (List.find _ _) as [u|];
    [destruct (String.eqb (pin_code u) pin)|];
    inversion Hrun; subst; split; reflexivity.
Qed.

Lemma locked_below_threshold (now : datetime) (name : string)
    (fa : gmap string (Z * datetime)) :
  (forall attempts lock_time,
     fa !! name = Some (attempts, lock_time) -> attempts < 3) ->
  locked now name fa = false /\ after_check name fa = fa.
Proof.
  intros Hlow. unfold locked, after_check.
  destruct (fa !! name) as [[attempts lock_time]|]; [|by split].
  specialize (Hlow attempts lock_time eq_refl).
  replace (LOCKOUT_THRESHOLD <=? attempts) with false; [by split|].
  symmetry. apply Z.leb_gt. exact Hlow.
Qed.

Lemma after_failure_lookup (t : datetime) (name : string)
    (fa : gmap string (Z * datetime)) :
  after_failure t name fa !! name
  = Some (match fa !! name with
          | Some (attempts, _) => attempts + 1
          | None => 1
          end, t).
Proof. unfold after_failure. apply lookup_insert_eq. Qed.

(** C3, as the code has it.  Take a name that the store accepts as a
    pattern.  From a world without a record for the name, three attempts in
    a row that fail each end in [InvalidPin]; the attempt after them,
    checked less than 30 minutes after the third failure, ends in
    [AccountLocked] whatever its PIN, and changes nothing. *)
Theorem fourth_attempt_is_locked
    (name p1 p2 p3 p4 : string)
    (c1 t1 c2 t2 c3 t3 c4 t4 : datetime)
    (w w1 w2 w3 : World) (e1 e2 e3 : Exn) :
  accepted_pattern name = true ->
  failed_attempts w !! name = None ->
  verify_pin c1 t1 name p1 w = (Raise e1, w1) ->
  verify_pin c2 t2 name p2 w1 = (Raise e2, w2) ->
  verify_pin c3 t3 name p3 w2 = (Raise e3, w3) ->
  0 <= c4 - t3 < secs 1800 ->
  e1 = InvalidPin /\ e2 = InvalidPin /\ e3 = InvalidPin
  /\ failed_attempts w3 !! name = Some (3, t3)
  /\ verify_pin c4 t4 name p4 w3 = (Raise AccountLocked, w3).
Proof.
  intros _ H0 R1 R2 R3 Hwin.
  destruct (locked_below_threshold c1 name (failed_attempts w)) as [L1 A1].
  { intros a t Ha. rewrite H0 in Ha. discriminate Ha. }
  destruct (verify_pin_raise_inv _ _ _ _ _ _ _ R1 L1) as [-> F1].
  rewrite A1 in F1.
  assert (K1 : failed_attempts w1 !! name = Some (1, t1)).
  { rewrite F1, after_failure_lookup, H0. reflexivity. }
  destruct (locked_below_threshold c2 name (failed_attempts w1)) as [L2 A2].
  { intros a t Ha. rewrite K1 in Ha. injection Ha as <- <-. lia. }
  destruct (verify_pin_raise_inv _ _ _ _ _ _ _ R2 L2) as [-> F2].
  rewrite A2 in F2.
  assert (K2 : failed_attempts w2 !! name = Some (2, t2)).
  { rewrite F2, after_failure_lookup, K1. reflexivity. }
  destruct (locked_below_threshold c3 name (failed_attempts w2)) as [L3 A3].
  { intros a t Ha. rewrite K2 in Ha. injection Ha as <- <-. lia. }
  destruct (verify_pin_raise_inv _ _ _ _ _ _ _ R3 L3) as [-> F3].
  rewrite A3 in F3.
  assert (K3 : failed_attempts w3 !! name = Some (3, t3)).
  { rewrite F3, after_failure_lookup, K2. reflexivity. }
  repeat split; try reflexivity; [exact K3|].
  apply (verify_pin_locked c4 t4 name p4 w3 3 t3);
    [exact K3 | lia | exact Hwin].
Qed.

Lemma fourth_attempt_is_locked_witness :
  let w := world_of ∅ store_ada in
  let w1 := snd (verify_pin (secs 1) (secs 1) "Ada Lovelace" "0000" w) in
  let w2 := snd (verify_pin (secs 2) (secs 2) "Ada Lovelace" "0000" w1) in
  let w3 := snd (verify_pin (secs 3) (secs 3) "Ada Lovelace" "0000" w2) in
  (accepted_pattern "Ada Lovelace" = true
   /\ failed_attempts w !! "Ada Lovelace" = None
   /\ verify_pin (secs 1) (secs 1) "Ada Lovelace" "0000" w
      = (Raise InvalidPin, w1)
   /\ verify_pin (secs 2) (secs 2) "Ada Lovelace" "0000" w1
      = (Raise InvalidPin, w2)
   /\ verify_pin (secs 3) (secs 3) "Ada Lovelace" "0000" w2
      = (Raise InvalidPin, w3)
   /\ 0 <= secs 4 - secs 3 < secs 1800)
  /\ (InvalidPin = InvalidPin /\ InvalidPin = InvalidPin
      /\ InvalidPin = InvalidPin
      /\ failed_attempts w3 !! "Ada Lovelace" = Some (3, secs 3)
      /\ verify_pin (secs 4) (secs 4) "Ada Lovelace" "1234" w3
         = (Raise AccountLocked, w3)).
Proof.
  intros w w1 w2 w3.
  assert (Hname : accepted_pattern "Ada Lovelace" = true) by reflexivity.
  assert (H0 : failed_attempts w !! "Ada Lovelace" = None) by reflexivity.
  assert (R1 : verify_pin (secs 1) (secs 1) "Ada Lovelace" "0000" w
               = (Raise InvalidPin, w1)) by (vm_compute; reflexivity).
  assert (R2 : verify_pin (secs 2) (secs 2) "Ada Lovelace" "0000" w1
               = (Raise InvalidPin, w2)) by (vm_compute; reflexivity).
  assert (R3 : verify_pin (secs 3) (secs 3) "Ada Lovelace" "0000" w2
               = (Raise InvalidPin, w3)) by (vm_compute; reflexivity).
  assert (Hwin : 0 <= secs 4 - secs 3 < secs 1800)
    by (unfold secs, us_per_second; lia).
  split; [auto 7|].
  exact (fourth_attempt_is_locked "Ada Lovelace" "0000" "0000" "0000" "1234"
           (secs 1) (secs 1) (secs 2) (secs 2) (secs 3) (secs 3)
           (secs 4) (secs 4) w w1 w2 w3 InvalidPin InvalidPin InvalidPin
           Hname H0 R1 R2 R3 Hwin).
Defined.

(** C3, as the claim has it: refuted.  After two failed attempts on a
    name without a record, the third attempt with a wrong PIN ends in
    [InvalidPin], which is not [AccountLocked], and the third attempt with
    the right PIN is accepted. *)
Lemma third_attempt_is_not_locked :
  let w := world_of ∅ store_ada in
  let w1 := snd (verify_pin (secs 1) (secs 1) "Ada Lovelace" "0000" w) in
  let w2 := snd (verify_pin (secs 2) (secs 2) "Ada Lovelace" "0000" w1) in
  failed_attempts w !! "Ada Lovelace" = None
  /\ fst (verify_pin (secs 1) (secs 1) "Ada Lovelace" "0000" w)
     = Raise InvalidPin
  /\ fst (verify_pin (secs 2) (secs 2) "Ada Lovelace" "0000" w1)
     = Raise InvalidPin
  /\ fst (verify_pin (secs 3) (secs 3) "Ada Lovelace" "0000" w2)
     = Raise InvalidPin
  /\ InvalidPin <> AccountLocked
  /\ fst (verify_pin (secs 3) (secs 3) "Ada Lovelace" "1234" w2)
     = Return ada.
Proof.
  cbv zeta. repeat split; try (vm_compute; reflexivity).
  intros H. discriminate H.
Qed.

(** ** A successful login and the record it clears *)

(** C4, as the code has it.  After an accepted login there is no record
    under the name as it was typed; the records under every other key are
    those the dict had before the call. *)
Theorem success_clears_the_typed_name
    (now_check now_fail : datetime) (name pin : string) (w w' : World)
    (u : User) :
  verify_pin now_check now_fail name pin w = (Return u, w') ->
  ilike (full_name u) name = true
  /\ pin_code u = pin
  /\ failed_attempts w' !! name = None
  /\ (forall other, other <> name ->
        failed_attempts w' !! other = failed_attempts w !! other).
Proof.
  rewrite verify_pin_run.
  destruct (locked now_check name (failed_attempts w)); [discriminate|].
  cbv zeta.
  destruct (List.find _ _) as [v|] eqn:Hfind; [|discriminate].
  destruct (String.eqb (pin_code v) pin) eqn:Hpin; [|discriminate].
  intros H. injection H as <- <-.
  apply find_some in Hfind as [_ Hmatch].
  apply String.eqb_eq in Hpin.
  repeat split; try assumption.
  - simpl. apply lookup_delete_eq.
  - intros other Hne. simpl.
    rewrite lookup_delete_ne by congruence.
    unfold after_check.
    destruct (failed_attempts w !! name) as [[a t]|]; [|reflexivity].
    destruct (LOCKOUT_THRESHOLD <=? a); [|reflexivity].
    apply lookup_delete_ne. congruence.
Qed.

Lemma success_clears_the_typed_name_witness :
  let w := world_of {["Ada Lovelace" := (2, 0)]} store_ada in
  let w' := snd (verify_pin (secs 1) (secs 1) "ada lovelace" "1234" w) in
  verify_pin (secs 1) (secs 1) "ada lovelace" "1234" w = (Return ada, w')
  /\ (ilike (full_name ada) "ada lovelace" = true
      /\ pin_code ada = "1234"
      /\ failed_attempts w' !! "ada lovelace" = None
      /\ (forall other, other <> "ada lovelace" ->
            failed_attempts w' !! other = failed_attempts w !! other)).
Proof.
  intros w w'.
  assert (H : verify_pin (secs 1) (secs 1) "ada lovelace" "1234" w
              = (Return ada, w')) by (vm_compute; reflexivity).
  split; [exact H|].
  exact (success_clears_the_typed_name (secs 1) (secs 1) "ada lovelace"
           "1234" w w' ada H).
Defined.

(** C4, as the claim has it: refuted.  Two failures are on record under
    "ada lovelace", a spelling that resolves to Ada's row.  A login as
    "Ada Lovelace" with her PIN is accepted, and the record under
    "ada lovelace" is still there afterwards. *)
Lemma success_keeps_other_spellings :
  let w := world_of {["ada lovelace" := (2, 0)]} store_ada in
  let w' := snd (verify_pin (secs 1) (secs 1) "Ada Lovelace" "1234" w) in
  fst (verify_pin (secs 1) (secs 1) "Ada Lovelace" "1234" w) = Return ada
  /\ List.find (where_ (WhereNameIlike "ada lovelace")) (users (session w))
     = Some ada
  /\ failed_attempts w' !! "ada lovelace" = Some (2, 0).
Proof.
  cbv zeta. repeat split; vm_compute; reflexivity.
Qed.

(** ** Unknown name or wrong PIN: the same failure *)

Lemma check_failed_attempts_return (now : datetime) (name : string)
    (w : World) :
  fst (check_failed_attempts now name w) = Return tt ->
  locked now name (failed_attempts w) = false
  /\ failed_attempts (snd (check_failed_attempts now name w))
     = after_check name (failed_attempts w).
Proof.
  rewrite check_failed_attempts_run.
  destruct (locked now name (failed_attempts w)); [discriminate|].
  by split.
Qed.

(** C5. Take one dict, one attempted name and PIN, one pair of clock
    readings, and two stores: in the first no row matches the name, in the
    second a row matches and its PIN differs from the one supplied.  When
    the lockout check lets the attempt through, both runs raise
    [InvalidPin] and end with the same dict: the one left by the check,
    with the record of the attempted name set to the old count plus one
    (1 when there was none) and the time of the failure. *)
Theorem failure_recorded_alike
    (now_check now_fail : datetime) (name pin : string)
    (fa : gmap string (Z * datetime)) (s1 s2 : Session) (u : User) :
  fst (check_failed_attempts now_check name (world_of fa s1)) = Return tt ->
  List.find (where_ (WhereNameIlike name)) (users s1) = None ->
  List.find (where_ (WhereNameIlike name)) (users s2) = Some u ->
  pin_code u <> pin ->
  let r1 := verify_pin now_check now_fail name pin (world_of fa s1) in
  let r2 := verify_pin now_check now_fail name pin (world_of fa s2) in
  let checked :=
    failed_attempts
      (snd (check_failed_attempts now_check name (world_of fa s1))) in
  fst r1 = Raise InvalidPin
  /\ fst r2 = Raise InvalidPin
  /\ failed_attempts (snd r1) = failed_attempts (snd r2)
  /\ failed_attempts (snd r1)
     = <[name := (match checked !! name with
                  | Some (attempts, _) => attempts + 1
                  | None => 1
                  end, now_fail)]> checked.
Proof.
  intros Hcheck Hnone Hsome Hpin r1 r2 checked.
  apply check_failed_attempts_return in Hcheck as [Hfree Hchecked].
  simpl in Hfree.
  assert (E1 : r1 = (Raise InvalidPin,
                     with_failed (after_failure now_fail name checked)
                       (with_statement (Exec (WhereNameIlike name))
                          (world_of fa s1)))).
  { unfold r1. rewrite verify_pin_run. simpl. rewrite Hfree, Hnone.
    unfold checked. rewrite Hchecked. reflexivity. }
  assert (E2 : r2 = (Raise InvalidPin,
                     with_failed (after_failure now_fail name checked)
                       (with_statement (Exec (WhereNameIlike name))
                          (world_of fa s2)))).
  { unfold r2. rewrite verify_pin_run. simpl. rewrite Hfree, Hsome.
    replace (String.eqb (pin_code u) pin) with false
      by (symmetry; apply String.eqb_neq; exact Hpin).
    unfold checked. rewrite Hchecked. reflexivity. }
  rewrite E1, E2. repeat split; reflexivity.
Qed.

Lemma failure_recorded_alike_witness :
  let fa : gmap string (Z * datetime) := {["Ada Lovelace" := (1, 0)]} in
  (fst (check_failed_attempts (secs 1) "Ada Lovelace" (world_of fa store_empty))
   = Return tt
   /\ List.find (where_ (WhereNameIlike "Ada Lovelace")) (users store_empty)
      = None
   /\ List.find (where_ (WhereNameIlike "Ada Lovelace")) (users store_ada)
      = Some ada
   /\ pin_code ada <> "0000")
  /\ fst (verify_pin (secs 1) (secs 2) "Ada Lovelace" "0000"
            (world_of fa store_empty)) = Raise InvalidPin
  /\ fst (verify_pin (secs 1) (secs 2) "Ada Lovelace" "0000"
            (world_of fa store_ada)) = Raise InvalidPin
  /\ failed_attempts (snd (verify_pin (secs 1) (secs 2) "Ada Lovelace" "0000"
                             (world_of fa store_empty)))
     = failed_attempts (snd (verify_pin (secs 1) (secs 2) "Ada Lovelace" "0000"
                               (world_of fa store_ada)))
  /\ failed_attempts (snd (verify_pin (secs 1) (secs 2) "Ada Lovelace" "0000"
                             (world_of fa store_empty)))
     !! "Ada Lovelace" = Some (2, secs 2).
Proof.
  intros fa.
  assert (H1 : fst (check_failed_attempts (secs 1) "Ada Lovelace"
                      (world_of fa store_empty)) = Return tt)
    by reflexivity.
  assert (H2 : List.find (where_ (WhereNameIlike "Ada Lovelace"))
                 (users store_empty) = None) by reflexivity.
  assert (H3 : List.find (where_ (WhereNameIlike "Ada Lovelace"))
                 (users store_ada) = Some ada) by reflexivity.
  assert (H4 : pin_code ada <> "0000") by discriminate.
  split; [auto|].
  destruct (failure_recorded_alike (secs 1) (secs 2) "Ada Lovelace" "0000"
              fa store_empty store_ada ada H1 H2 H3 H4)
    as (R1 & R2 & Rsame & Rdict).
  split; [exact R1|]. split; [exact R2|]. split; [exact Rsame|].
  rewrite Rdict. reflexivity.
Defined.

(** ** Session tokens: issue, then validate *)

Section TokenProperties.

Variable hmac_sha256 : string -> string * gmap string Json -> string.

Lemma to_intdate_insert (k : string) (d : datetime)
    (claims : gmap string PyVal) :
  to_intdate k (<[k := PDatetime d]> claims)
  = <[k := PInt (timegm d)]> claims.
Proof.
  unfold to_intdate. rewrite lookup_insert_eq. apply insert_insert_eq.
Qed.

Lemma create_access_token_run (now : datetime) (name role_ : string)
    (user_id : Z) :
  create_access_token hmac_sha256 now (token_data name role_ user_id)
  = Return {| tok_alg := ALGORITHM;
              tok_claims := issued_claims now name role_ user_id;
              tok_signature :=
                hmac_sha256 SECRET_KEY
                  (ALGORITHM, issued_claims now name role_ user_id) |}.
Proof.
  unfold create_access_token, jwt_encode, issued_claims.
  rewrite (insert_insert_ne _ "sub" "exp") by discriminate.
  rewrite to_intdate_insert.
  generalize (timegm (datetime_add now (hours ACCESS_TOKEN_EXPIRE_HOURS))).
  intros expiry. vm_compute. reflexivity.
Qed.

Lemma timegm_mono (a b : datetime) : a <= b -> timegm a <= timegm b.
Proof.
  intros H. unfold timegm, us_per_second. apply Z.div_le_mono; lia.
Qed.

Lemma jwt_decode_issued (now_issue now_validate : datetime)
    (name role_ : string) (user_id : Z) :
  jwt_decode hmac_sha256
    {| tok_alg := ALGORITHM;
       tok_claims := issued_claims now_issue name role_ user_id;
       tok_signature :=
         hmac_sha256 SECRET_KEY
           (ALGORITHM, issued_claims now_issue name role_ user_id) |}
    SECRET_KEY [ALGORITHM] now_validate
  = if timegm (datetime_add now_issue (hours ACCESS_TOKEN_EXPIRE_HOURS))
       <? timegm now_validate
    then Raise JWTError
    else Return (issued_claims now_issue name role_ user_id).
Proof.
  unfold jwt_decode. cbn [tok_alg tok_claims tok_signature].
  rewrite String.eqb_refl.
  change (existsb (String.eqb ALGORITHM) [ALGORITHM]) with true.
  cbn [negb].
  unfold validate_claims.
  change (valid_iat (issued_claims now_issue name role_ user_id)) with true.
  change (valid_nbf (timegm now_validate)
            (issued_claims now_issue name role_ user_id)) with true.
  change (valid_aud (issued_claims now_issue name role_ user_id)) with true.
  change (valid_sub (issued_claims now_issue name role_ user_id)) with true.
  change (valid_jti (issued_claims now_issue name role_ user_id)) with true.
  change (valid_at_hash (issued_claims now_issue name role_ user_id))
    with true.
  change (valid_exp (timegm now_validate)
            (issued_claims now_issue name role_ user_id))
    with (negb (timegm (datetime_add now_issue
                          (hours ACCESS_TOKEN_EXPIRE_HOURS))
                <? timegm now_validate)).
  cbn [andb]. rewrite !andb_true_r.
  by destruct (_ <? _).
Qed.

(** C6. A token that [create_access_token] makes from the dict of a
    (name, role, user id) triple decodes, at any time up to 24 hours
    after it was issued, to a payload whose subject is the name and
    whose role and user id are those of the triple. *)
Theorem issue_then_validate_round_trips
    (now_issue now_validate : datetime) (name role_ : string)
    (user_id : Z) :
  now_validate <= now_issue + 24 * 3600 * us_per_second ->
  exists token payload,
    create_access_token hmac_sha256 now_issue
      (token_data name role_ user_id) = Return token
    /\ jwt_decode hmac_sha256 token SECRET_KEY [ALGORITHM] now_validate
       = Return payload
    /\ payload !! "sub" = Some (JStr name)
    /\ payload !! "role" = Some (JStr role_)
    /\ payload !! "user_id" = Some (JInt user_id).
Proof.
  intros Hwin.
  eexists. exists (issued_claims now_issue name role_ user_id).
  split; [apply create_access_token_run|].
  split; [|by split; [|split]].
  rewrite jwt_decode_issued.
  replace (_ <? _) with false; [reflexivity|].
  symmetry. apply Z.ltb_ge. apply timegm_mono.
  change (datetime_add now_issue (hours ACCESS_TOKEN_EXPIRE_HOURS))
    with (now_issue + 86400000000).
  unfold us_per_second in Hwin. lia.
Qed.

(** Once the whole second of the expiry is past, the token is refused. *)
Lemma expired_token_refused
    (now_issue now_validate : datetime) (name role_ : string)
    (user_id : Z) (token : Token) :
  create_access_token hmac_sha256 now_issue
    (token_data name role_ user_id) = Return token ->
  now_issue + 24 * 3600 * us_per_second + us_per_second <= now_validate ->
  jwt_decode hmac_sha256 token SECRET_KEY [ALGORITHM] now_validate
  = Raise JWTError.
Proof.
  rewrite create_access_token_run. intros [= <-] Hlate.
  rewrite jwt_decode_issued.
  replace (_ <? _) with true; [reflexivity|].
  symmetry. apply Z.ltb_lt.
  change (datetime_add now_issue (hours ACCESS_TOKEN_EXPIRE_HOURS))
    with (now_issue + 86400000000).
  unfold timegm, us_per_second in *.
  apply Z.lt_le_trans with ((now_issue + 86400000000 + 1000000) / 1000000).
  - replace (now_issue + 86400000000 + 1000000)
      with (now_issue + 86400000000 + 1 * 1000000) by lia.
    rewrite Z.div_add by lia. lia.
  - apply Z.div_le_mono; lia.
Qed.

End TokenProperties.

Lemma issue_then_validate_round_trips_witness :
  secs 3600 <= 0 + 24 * 3600 * us_per_second
  /\ exists token payload,
       create_access_token mac_example 0 (token_data "Ada Lovelace" "user" 1)
       = Return token
       /\ jwt_decode mac_example token SECRET_KEY [ALGORITHM] (secs 3600)
          = Return payload
       /\ payload !! "sub" = Some (JStr "Ada Lovelace")
       /\ payload !! "role" = Some (JStr "user")
       /\ payload !! "user_id" = Some (JInt 1).
Proof.
  assert (H : secs 3600 <= 0 + 24 * 3600 * us_per_second)
    by (unfold secs, us_per_second; lia).
  split; [exact H|].
  exact (issue_then_validate_round_trips mac_example 0 (secs 3600)
           "Ada Lovelace" "user" 1 H).
Defined.

(** ** Registration *)

Lemma same_store_refl (w : World) : same_store w w.
Proof. by repeat split. Qed.

Lemma same_store_trans (w1 w2 w3 : World) :
  same_store w1 w2 -> same_store w2 w3 -> same_store w1 w3.
Proof.
  intros (U1 & N1 & F1) (U2 & N2 & F2).
  repeat split; congruence.
Qed.

Lemma same_store_statement (st : Statement) (w : World) :
  same_store w (with_statement st w).
Proof. by repeat split. Qed.

Lemma taken_same_store (w w' : World) (name pin : string) :
  same_store w w' -> taken (session w') name pin = taken (session w) name pin.
Proof. intros (U & _ & _). unfold taken. by rewrite U. Qed.

(** The loop entered with [attempts = 100 - remaining] and the PIN of draw
    number [attempts] stops at the first draw from there on that is free,
    or at 100. *)
Lemma pin_loop_run (rand : nat -> Z) (name : string) :
  forall (remaining : nat) (pin : string) (existing : option User) (w : World),
    (remaining <= 100)%nat ->
    pin = generate_pin (rand (100 - remaining)%nat) ->
    existing = List.find (where_ (WhereNameAndPin name pin)) (users (session w)) ->
    exists (attempts : nat) (w' : World),
      pin_loop rand name remaining pin existing w
      = (Return (generate_pin (rand attempts), Z.of_nat attempts), w')
      /\ same_store w w'
      /\ (100 - remaining <= attempts <= 100)%nat
      /\ ((attempts < 100)%nat ->
          taken (session w) name (generate_pin (rand attempts)) = false)
      /\ (forall k, (100 - remaining <= k < attempts)%nat ->
            taken (session w) name (generate_pin (rand k)) = true).
Proof.
  induction remaining as [|r IH]; intros pin existing w Hle Hpin Hex.
  - exists 100%nat, w.
    split; [|split; [apply same_store_refl|split; [lia|split; [lia|]]]].
    + change (100 - 0)%nat with 100%nat in Hpin. rewrite <- Hpin.
      destruct existing; reflexivity.
    + intros k Hk. lia.
  - destruct existing as [u|] eqn:Eex.
    + assert (Hidx : (Z.to_nat (MAX_PIN_ATTEMPTS - Z.of_nat (S r)) + 1
                      = 100 - r)%nat)
        by (unfold MAX_PIN_ATTEMPTS; lia).
      cbn [pin_loop]. rewrite Hidx.
      unfold bind at 1, exec_first at 1.
      set (w1 := {| failed_attempts := _; session := _ |}).
      destruct (IH (generate_pin (rand (100 - r)%nat))
                  (List.find (where_ (WhereNameAndPin name
                     (generate_pin (rand (100 - r)%nat)))) (users (session w)))
                  w1 ltac:(lia) eq_refl eq_refl)
        as (attempts & w' & Hrun & Hsame & Hrange & Hfree & Hbusy).
      exists attempts, w'.
      assert (Hs1 : same_store w w1) by apply same_store_statement.
      split; [exact Hrun|].
      split; [exact (same_store_trans _ _ _ Hs1 Hsame)|].
      split; [lia|].
      split.
      * intros Hlt. rewrite <- (taken_same_store w w1) by exact Hs1. auto.
      * intros k Hk.
        destruct (decide (k = (100 - S r)%nat)) as [->|Hne].
        -- unfold taken. rewrite <- Hpin, <- Hex. reflexivity.
        -- rewrite <- (taken_same_store w w1) by exact Hs1.
           apply Hbusy. lia.
    + exists (100 - S r)%nat, w. cbn [pin_loop].
      split.
      * unfold ret, MAX_PIN_ATTEMPTS. rewrite <- Hpin.
        repeat f_equal. lia.
      * split; [apply same_store_refl|]. split; [lia|]. split.
        -- intros _. unfold taken. rewrite <- Hpin, <- Hex. reflexivity.
        -- intros k Hk. lia.
Qed.

(** What one call of [register_user] does: [attempts] is the number of
    the first free draw among the first 100, or 100 when they all collide;
    [w1] is the world after the look-ups. *)
Lemma register_user_run (rand : nat -> Z) (now : datetime) (name : string)
    (w : World) :
  exists (attempts : nat) (w1 : World),
    same_store w w1
    /\ (attempts <= 100)%nat
    /\ (forall k, (k < attempts)%nat ->
          taken (session w) name (generate_pin (rand k)) = true)
    /\ ((attempts < 100)%nat ->
        taken (session w) name (generate_pin (rand attempts)) = false)
    /\ register_user rand now name w
       = if (attempts <? 100)%nat then
           let u := {| id := next_id (session w);
                       full_name := name;
                       pin_code := generate_pin (rand attempts);
                       role := "user";
                       created_at := now |} in
           (Return {| reg_pin := generate_pin (rand attempts); reg_user := u |},
            {| failed_attempts := failed_attempts w;
               session := {| users := users (session w) ++ [u];
                             next_id := next_id (session w) + 1;
                             statements :=
                               Get (id u) :: Insert u
                               :: statements (session w1) |} |})
         else (Raise IssuanceExhausted, w1).
Proof.
  set (w0 := with_statement
               (Exec (WhereNameAndPin name (generate_pin (rand 0%nat)))) w).
  assert (Hs0 : same_store w w0) by apply same_store_statement.
  destruct (pin_loop_run rand name 100 (generate_pin (rand 0%nat))
              (List.find (where_ (WhereNameAndPin name
                                    (generate_pin (rand 0%nat))))
                 (users (session w)))
              w0 ltac:(lia) eq_refl eq_refl)
    as (attempts & w1 & Hrun & Hsame & Hrange & Hfree & Hbusy).
  assert (Hs1 : same_store w w1) by exact (same_store_trans _ _ _ Hs0 Hsame).
  exists attempts, w1.
  split; [exact Hs1|]. split; [lia|]. split; [|split].
  - intros k Hk. rewrite <- (taken_same_store w w0) by exact Hs0.
    apply Hbusy. lia.
  - intros Hlt. rewrite <- (taken_same_store w w0) by exact Hs0. auto.
  - unfold register_user. unfold bind at 1, exec_first at 1.
    fold w0. unfold with_statement in w0. fold w0.
    change (Z.to_nat MAX_PIN_ATTEMPTS) with 100%nat.
    unfold bind at 1. rewrite Hrun.
    destruct Hs1 as (U1 & N1 & F1).
    destruct (Nat.ltb_spec attempts 100) as [Hlt|Hge].
    + replace (MAX_PIN_ATTEMPTS <=? Z.of_nat attempts) with false
        by (symmetry; apply Z.leb_gt; unfold MAX_PIN_ATTEMPTS; lia).
      unfold bind, session_add, session_refresh, ret.
      cbn [session users next_id statements failed_attempts log_statement id].
      rewrite U1, N1, F1. reflexivity.
    + replace (MAX_PIN_ATTEMPTS <=? Z.of_nat attempts) with true
        by (symmetry; apply Z.leb_le; unfold MAX_PIN_ATTEMPTS; lia).
      reflexivity.
Qed.

Lemma taken_false_fresh (s : Session) (name pin : string) :
  taken s name pin = false ->
  (name, pin) ∉ List.map (fun u => (full_name u, pin_code u)) (users s).
Proof.
  unfold taken. intros Hfree Hin.
  apply list_elem_of_In, in_map_iff in Hin as (u & Heq & Hu).
  injection Heq as Hn Hp.
  destruct (List.find _ _) eqn:Hfind; [discriminate|].
  pose proof (find_none _ _ Hfind u Hu) as Hno.
  simpl in Hno. rewrite Hn, Hp, !String.eqb_refl in Hno. discriminate Hno.
Qed.

Lemma register_user_keeps_unique (rand : nat -> Z) (now : datetime)
    (name : string) (w : World) :
  unique_name_pin (session w) ->
  unique_name_pin (session (snd (register_user rand now name w))).
Proof.
  intros Huniq.
  destruct (register_user_run rand now name w)
    as (attempts & w1 & (U1 & _ & _) & _ & _ & Hfree & ->).
  destruct (Nat.ltb_spec attempts 100) as [Hlt|Hge].
  - cbv zeta. unfold unique_name_pin. cbn [snd session users].
    rewrite map_app. cbn [List.map full_name pin_code].
    apply NoDup_app. split; [exact Huniq|]. split.
    + intros x Hx Hx'. apply list_elem_of_singleton in Hx'. subst x.
      exact (taken_false_fresh _ _ _ (Hfree Hlt) Hx).
    + apply NoDup_singleton.
  - unfold unique_name_pin. cbn [snd]. rewrite U1. exact Huniq.
Qed.

(** C7. From a store in which no two rows share both name and PIN, any
    sequence of [register_user] calls leads to a store with the same
    property. *)
Theorem registration_keeps_name_pin_unique
    (calls : list RegisterCall) (w : World) :
  unique_name_pin (session w) ->
  unique_name_pin (session (register_all calls w)).
Proof.
  revert w. induction calls as [|c rest IH]; intros w Huniq.
  - exact Huniq.
  - unfold register_all. cbn [fold_left].
    apply IH. apply register_user_keeps_unique. exact Huniq.
Qed.

Lemma registration_keeps_name_pin_unique_witness :
  let calls := [ {| call_rand := fun _ => 1234; call_now := secs 1;
                    call_name := "Ada Lovelace" |};
                 {| call_rand := fun k => Z.of_nat k + 1234; call_now := secs 2;
                    call_name := "Ada Lovelace" |};
                 {| call_rand := fun _ => 1235; call_now := secs 3;
                    call_name := "Grace Hopper" |} ] in
  unique_name_pin (session (world_of ∅ store_ada))
  /\ unique_name_pin (session (register_all calls (world_of ∅ store_ada)))
  /\ List.map (fun u => (full_name u, pin_code u))
       (users (session (register_all calls (world_of ∅ store_ada))))
     = [("Ada Lovelace", "1234"); ("Ada Lovelace", "1235");
        ("Grace Hopper", "1235")].
Proof.
  intros calls.
  assert (H : unique_name_pin (session (world_of ∅ store_ada))).
  { unfold unique_name_pin. simpl. apply NoDup_singleton. }
  split; [exact H|]. split.
  - exact (registration_keeps_name_pin_unique calls (world_of ∅ store_ada) H).
  - vm_compute. reflexivity.
Defined.

(** ** The retry bound *)

(** [register_user] ends in [IssuanceExhausted] exactly when the first
    PIN and the 99 PINs drawn after it all collide; the PIN of the 100th
    redraw is not looked at. *)
Lemma register_user_exhausted_iff (rand : nat -> Z) (now : datetime)
    (name : string) (w : World) :
  fst (register_user rand now name w) = Raise IssuanceExhausted
  <-> (forall k, (k < 100)%nat ->
         taken (session w) name (generate_pin (rand k)) = true).
Proof.
  destruct (register_user_run rand now name w)
    as (attempts & w1 & _ & Hle & Hbusy & Hfree & ->).
  destruct (Nat.ltb_spec attempts 100) as [Hlt|Hge]; cbn [fst]; split.
  - discriminate.
  - intros Hall. rewrite (Hall attempts Hlt) in Hfree.
    specialize (Hfree Hlt). discriminate Hfree.
  - intros _ k Hk. apply Hbusy. lia.
  - reflexivity.
Qed.

(** A call that raises has stored nothing. *)
Lemma register_user_failure_stores_nothing (rand : nat -> Z) (now : datetime)
    (name : string) (w : World) (e : Exn) :
  fst (register_user rand now name w) = Raise e ->
  e = IssuanceExhausted
  /\ same_store w (snd (register_user rand now name w)).
Proof.
  destruct (register_user_run rand now name w)
    as (attempts & w1 & Hsame & _ & _ & _ & ->).
  destruct (Nat.ltb_spec attempts 100); cbn [fst snd].
  - discriminate.
  - intros [= <-]. by split.
Qed.

(** C8. Ada's row holds PIN 1234.  The first draw and the 99 redraws
    after it give 1234, the 100th redraw gives the free PIN 0001: the call
    still ends in [IssuanceExhausted] and the table is as it was. *)
Theorem register_user_fails_on_free_hundredth_redraw :
  let w := world_of ∅ store_ada in
  let run := register_user rand_hundred_collisions (secs 1) "Ada Lovelace" w in
  (forall k, (k < 100)%nat ->
     taken store_ada "Ada Lovelace" (generate_pin (rand_hundred_collisions k))
     = true)
  /\ generate_pin (rand_hundred_collisions 100) = "0001"
  /\ taken store_ada "Ada Lovelace" "0001" = false
  /\ fst run = Raise IssuanceExhausted
  /\ users (session (snd run)) = users store_ada.
Proof.
  intros w run.
  assert (Hall : forall k, (k < 100)%nat ->
            taken store_ada "Ada Lovelace"
              (generate_pin (rand_hundred_collisions k)) = true).
  { intros k Hk. unfold rand_hundred_collisions.
    replace (k <? 100)%nat with true by (symmetry; by apply Nat.ltb_lt).
    reflexivity. }
  split; [exact Hall|].
  split; [reflexivity|]. split; [reflexivity|].
  assert (Hfail : fst run = Raise IssuanceExhausted)
    by (apply register_user_exhausted_iff; exact Hall).
  split; [exact Hfail|].
  apply (register_user_failure_stores_nothing _ _ _ _ _ Hfail).
Qed.

(** ** Start-up and the default admin *)

Lemma connect_loop_run (db_ready : nat -> bool) (attempts : list nat)
    (w : World) :
  connect_loop db_ready attempts w = (Return tt, w)
  \/ connect_loop db_ready attempts w = (Raise OperationalError, w).
Proof.
  induction attempts as [|attempt rest IH]; simpl.
  - by left.
  - destruct (db_ready attempt); [by left|].
    destruct (Z.of_nat attempt <? max_retries - 1); [exact IH | by right].
Qed.

(** A start-up that completes appends the default admin when no row has
    its name, and otherwise leaves the table alone. *)
Lemma lifespan_return (db_ready : nat -> bool) (now : datetime)
    (w w' : World) :
  lifespan db_ready now w = (Return tt, w') ->
  users (session w')
  = match List.find (where_ (WhereName "Abiel Robinson")) (users (session w)) with
    | Some _ => users (session w)
    | None =>
        (users (session w)
         ++ [ {| id := next_id (session w); full_name := "Abiel Robinson";
                 pin_code := "0000"; role := "admin"; created_at := now |} ])%list
    end.
Proof.
  unfold lifespan, bind at 1.
  destruct (connect_loop_run db_ready (seq 0 (Z.to_nat max_retries)) w)
    as [-> | ->]; [|discriminate].
  unfold bind at 1, exec_first at 1.
  destruct (List.find _ _) as [u|].
  - intros [= <-]. reflexivity.
  - unfold bind, session_add, ret. intros [= <-]. reflexivity.
Qed.

Lemma lifespan_raise (db_ready : nat -> bool) (now : datetime)
    (w w' : World) (e : Exn) :
  lifespan db_ready now w = (Raise e, w') -> w' = w.
Proof.
  unfold lifespan, bind at 1.
  destruct (connect_loop_run db_ready (seq 0 (Z.to_nat max_retries)) w)
    as [-> | ->]; [|by intros [= _ <-]].
  unfold bind at 1, exec_first at 1.
  destruct (List.find _ _) as [u|]; [discriminate|].
  unfold bind, session_add, ret. discriminate.
Qed.

Lemma default_admin_has_name (l : list User) :
  existsb is_default_admin l = true ->
  exists u, List.find (where_ (WhereName "Abiel Robinson")) l = Some u.
Proof.
  intros H. apply existsb_exists in H as (u & Hin & Hu).
  destruct (List.find (where_ (WhereName "Abiel Robinson")) l) as [v|] eqn:E;
    [by exists v|].
  pose proof (find_none _ _ E u Hin) as Hno. simpl in Hno.
  unfold is_default_admin, DEFAULT_ADMIN_NAME in Hu.
  rewrite Hno in Hu. discriminate Hu.
Qed.

(** ** The default admin over the life of the application *)

Lemma keeps_admin_refl (l : list User) : keeps_admin l l.
Proof. intros H. by split. Qed.

Lemma keeps_admin_eq (l l' : list User) : l' = l -> keeps_admin l l'.
Proof. intros ->. apply keeps_admin_refl. Qed.

Lemma keeps_admin_user_row (l : list User) (u : User) :
  role u = "user" -> keeps_admin l (l ++ [u]).
Proof.
  intros Hrole Hdef. split.
  - intros v Hin Hadmin. apply in_app_or in Hin as [Hin | [<- | []]].
    + by apply Hdef.
    + rewrite Hrole in Hadmin. discriminate Hadmin.
  - intros H. rewrite existsb_app, H. reflexivity.
Qed.

Lemma keeps_admin_delete (l : list User) (current target : User) :
  In current l ->
  role current = "admin" ->
  (id target =? id current) = false ->
  keeps_admin l (List.filter (fun v => negb (id v =? id target)) l).
Proof.
  intros Hin Hadmin Hne Hdef. split.
  - intros v Hv. apply filter_In in Hv as [Hv _]. by apply Hdef.
  - intros _. apply existsb_exists. exists current. split.
    + apply filter_In. split; [exact Hin|].
      rewrite Z.eqb_sym, Hne. reflexivity.
    + by apply Hdef.
Qed.

Lemma verify_pin_users (now_check now_fail : datetime) (name pin : string)
    (w : World) :
  users (session (snd (verify_pin now_check now_fail name pin w)))
  = users (session w).
Proof.
  rewrite verify_pin_run.
  destruct (locked now_check name (failed_attempts w)); [reflexivity|].
  cbv zeta.
  destruct (List.find _ _) as [u|];
    [destruct (String.eqb (pin_code u) pin)|]; reflexivity.
Qed.

Section LifecycleProperties.

Variable hmac_sha256 : string -> string * gmap string Json -> string.

Lemma lift_result_state {A} (r : Result A) (w : World) :
  snd (lift_result r w) = w.
Proof. by destruct r. Qed.

Lemma login_user_users (c f t : datetime) (name pin : string) (w : World) :
  users (session (snd (login_user hmac_sha256 c f t name pin w)))
  = users (session w).
Proof.
  rewrite <- (verify_pin_users c f name pin w).
  unfold login_user, bind at 1.
  destruct (verify_pin c f name pin w) as [[u|e] w1]; [|reflexivity].
  unfold bind. cbn [snd].
  pose proof (lift_result_state
    (create_access_token hmac_sha256 t
       (token_data (full_name u) (role u) (id u))) w1) as Hs.
  destruct (lift_result _ w1) as [[tok|e] w2]; cbn [snd] in *;
    by subst w2.
Qed.

Lemma admin_login_users (c f t : datetime) (name pin : string) (w : World) :
  users (session (snd (admin_login hmac_sha256 c f t name pin w)))
  = users (session w).
Proof.
  rewrite <- (verify_pin_users c f name pin w).
  unfold admin_login, bind at 1.
  destruct (verify_pin c f name pin w) as [[u|e] w1]; [|reflexivity].
  cbn [snd].
  destruct (negb (String.eqb (role u) "admin")); [reflexivity|].
  unfold bind.
  pose proof (lift_result_state
    (create_access_token hmac_sha256 t
       (token_data (full_name u) (role u) (id u))) w1) as Hs.
  destruct (lift_result _ w1) as [[tok|e] w2]; cbn [snd] in *;
    by subst w2.
Qed.

Lemma get_current_user_run (credentials : option Token) (now : datetime)
    (w : World) :
  users (session (snd (get_current_user hmac_sha256 credentials now w)))
  = users (session w)
  /\ forall u, fst (get_current_user hmac_sha256 credentials now w) = Return u ->
               In u (users (session w)).
Proof.
  unfold get_current_user.
  destruct credentials as [token|]; [|by split].
  destruct (jwt_decode _ _ _ _ _) as [payload|e]; [|by split].
  destruct (payload !! "sub") as [[|name|n]|]; try by split.
  unfold bind, exec_first. cbn [session users log_statement].
  destruct (List.find _ _) as [u|] eqn:Hfind; cbn [fst snd].
  - split; [reflexivity|]. intros v [= <-].
    by apply find_some in Hfind as [Hin _].
  - by split.
Qed.

Lemma delete_user_keeps_admin (user_id : Z) (credentials : option Token)
    (now : datetime) (w : World) :
  keeps_admin (users (session w))
    (users (session (snd (delete_user hmac_sha256 user_id credentials now w)))).
Proof.
  destruct (get_current_user_run credentials now w) as [Husers Hin].
  unfold delete_user, bind at 1.
  destruct (get_current_user hmac_sha256 credentials now w)
    as [[current|e] w1]; cbn [fst snd] in *.
  - specialize (Hin current eq_refl).
    destruct (String.eqb (role current) "admin") eqn:Hrole; cbn [negb].
    + apply String.eqb_eq in Hrole.
      unfold bind at 1, session_get at 1.
      destruct (List.find _ _) as [target|].
      * destruct (id target =? id current) eqn:Hid.
        -- exact (keeps_admin_eq _ _ Husers).
        -- unfold bind, session_delete, ret.
           cbn [snd session users log_statement failed_attempts].
           rewrite Husers.
           by apply keeps_admin_delete with current.
      * exact (keeps_admin_eq _ _ Husers).
    + exact (keeps_admin_eq _ _ Husers).
  - exact (keeps_admin_eq _ _ Husers).
Qed.

Lemma register_user_keeps_admin (rand : nat -> Z) (now : datetime)
    (name : string) (w : World) :
  keeps_admin (users (session w))
    (users (session (snd (register_user rand now name w)))).
Proof.
  destruct (register_user_run rand now name w)
    as (attempts & w1 & (U1 & _ & _) & _ & _ & _ & ->).
  destruct (attempts <? 100)%nat; cbn [snd session users].
  - by apply keeps_admin_user_row.
  - by apply keeps_admin_eq.
Qed.

Lemma handle_keeps_admin (r : Request) (w : World) :
  keeps_admin (users (session w))
    (users (session (handle hmac_sha256 r w))).
Proof.
  destruct r; cbn [handle].
  - apply register_user_keeps_admin.
  - apply keeps_admin_eq, login_user_users.
  - apply keeps_admin_eq, admin_login_users.
  - apply delete_user_keeps_admin.
Qed.

Lemma step_invariant (sys : System) (e : Event) :
  system_invariant sys -> system_invariant (step hmac_sha256 sys e).
Proof.
  intros Hinv. destruct e as [db_ready now | r |]; cbn [step].
  - destruct (up sys) eqn:Hup; [exact Hinv|].
    destruct Hinv as [Hdef Hadm].
    destruct (lifespan db_ready now
                {| failed_attempts := ∅; session := session (world sys) |})
      as [[[]|e] w'] eqn:Hrun.
    + apply lifespan_return in Hrun. cbn [session] in Hrun.
      unfold system_invariant, has_default_admin. cbn [world up].
      rewrite Hrun.
      destruct Hadm as [Hadm | [_ Hnil]].
      * destruct (default_admin_has_name _ Hadm) as [u ->].
        split; [exact Hdef | by left].
      * rewrite Hnil. cbn [List.find app]. split; [|by left].
        intros u [<- | []] _. reflexivity.
    + apply lifespan_raise in Hrun. subst w'.
      split; [exact Hdef|]. cbn [world up session].
      destruct Hadm as [Hadm | [_ Hnil]]; [by left | by right].
  - destruct (up sys) eqn:Hup; [|exact Hinv].
    destruct Hinv as [Hdef Hadm].
    destruct Hadm as [Hadm | [Hdown _]]; [|congruence].
    destruct (handle_keeps_admin r (world sys) Hdef) as [Hdef' Hadm'].
    split; [exact Hdef'|]. left. by apply Hadm'.
  - destruct Hinv as [Hdef Hadm].
    split; [exact Hdef|].
    destruct Hadm as [Hadm | [_ Hnil]]; [by left | by right].
Qed.

Lemma run_invariant (events : list Event) (sys : System) :
  system_invariant sys -> system_invariant (run hmac_sha256 events sys).
Proof.
  revert sys. induction events as [|e rest IH]; intros sys Hinv.
  - exact Hinv.
  - unfold run. cbn [fold_left]. apply IH, step_invariant, Hinv.
Qed.

Lemma initial_invariant : system_invariant initial.
Proof.
  split.
  - intros u [].
  - right. by split.
Qed.

End LifecycleProperties.

Lemma find_by_name_none (l : list User) (name : string) :
  List.find (where_ (WhereName name)) l = None
  <-> existsb (fun u => String.eqb (full_name u) name) l = false.
Proof.
  induction l as [|u l IH]; simpl; [by split|].
  destruct (String.eqb (full_name u) name); simpl; [by split | exact IH].
Qed.

(** C10, as the code has it.  A start-up that completes appends an
    identity named "Abiel Robinson" with PIN "0000" and role admin when
    the store has no identity of that name, and leaves the table as it is
    when it has one.  After it the store holds an identity of that name;
    it holds an admin identity with the fixed PIN whenever the name was
    free before, or such an admin was already stored, or the store is one
    that a run of the application has produced from the empty store. *)
Theorem startup_seeds_default_admin
    (hmac_sha256 : string -> string * gmap string Json -> string)
    (db_ready : nat -> bool) (now : datetime) (w w' : World) :
  lifespan db_ready now w = (Return tt, w') ->
  users (session w')
  = (if has_name (session w) "Abiel Robinson"
     then users (session w)
     else (users (session w)
           ++ [ {| id := next_id (session w); full_name := "Abiel Robinson";
                   pin_code := "0000"; role := "admin";
                   created_at := now |} ])%list)
  /\ has_name (session w') "Abiel Robinson" = true
  /\ (has_name (session w) "Abiel Robinson" = false
      \/ has_default_admin (session w) = true
      \/ (exists events,
            session w = session (world (run hmac_sha256 events initial)))
      -> has_default_admin (session w') = true).
Proof.
  intros Hrun. apply lifespan_return in Hrun.
  assert (Husers : users (session w')
    = (if has_name (session w) "Abiel Robinson"
       then users (session w)
       else (users (session w)
             ++ [ {| id := next_id (session w); full_name := "Abiel Robinson";
                     pin_code := "0000"; role := "admin";
                     created_at := now |} ])%list)).
  { rewrite Hrun. unfold has_name.
    destruct (List.find _ _) as [u|] eqn:Hfind.
    - destruct (existsb _ _) eqn:Hex; [reflexivity|].
      apply find_by_name_none in Hex. congruence.
    - apply find_by_name_none in Hfind. by rewrite Hfind. }
  assert (Hfree : has_name (session w) "Abiel Robinson" = false ->
                  has_default_admin (session w') = true).
  { intros Hno. unfold has_default_admin. rewrite Husers, Hno.
    rewrite existsb_app. apply orb_true_r. }
  assert (Hkept : has_default_admin (session w) = true ->
                  has_default_admin (session w') = true).
  { intros Hadm. unfold has_default_admin in *. rewrite Husers.
    destruct (has_name (session w) "Abiel Robinson"); [exact Hadm|].
    rewrite existsb_app, Hadm. reflexivity. }
  split; [exact Husers|]. split.
  - unfold has_name in *. rewrite Husers.
    destruct (existsb _ (users (session w))) eqn:Hex; [exact Hex|].
    rewrite existsb_app. apply orb_true_r.
  - intros [Hno | [Hadm | [events Hreach]]]; [by apply Hfree | by apply Hkept |].
    destruct (run_invariant hmac_sha256 events initial initial_invariant)
      as [_ [Hadm | [_ Hnil]]].
    + apply Hkept. by rewrite Hreach.
    + apply Hfree. unfold has_name. by rewrite Hreach, Hnil.
Qed.

Lemma startup_seeds_default_admin_witness :
  let w := world_of ∅ store_ada in
  let db_ready := fun k => (2 <=? k)%nat in
  let w' := snd (lifespan db_ready (secs 1) w) in
  lifespan db_ready (secs 1) w = (Return tt, w')
  /\ users (session w')
     = [ ada;
         {| id := 2; full_name := "Abiel Robinson"; pin_code := "0000";
            role := "admin"; created_at := secs 1 |} ]
  /\ has_name (session w') "Abiel Robinson" = true
  /\ has_default_admin (session w') = true.
Proof.
  intros w db_ready w'.
  assert (H : lifespan db_ready (secs 1) w = (Return tt, w'))
    by (vm_compute; reflexivity).
  split; [exact H|].
  destruct (startup_seeds_default_admin mac_example db_ready (secs 1) w w' H)
    as (Husers & Hname & Hadmin).
  split; [rewrite Husers; reflexivity|].
  split; [exact Hname|].
  apply Hadmin. left. reflexivity.
Defined.

(** C10, as the claim has it: refuted.  The store holds one identity, an
    ordinary user named "Abiel Robinson" with PIN "4821".  Start-up
    completes, finds the name, creates nothing, and the store holds no
    admin identity with PIN "0000". *)
Lemma startup_leaves_namesake_without_admin :
  let w := world_of ∅ store_namesake in
  let run := lifespan (fun _ => true) (secs 1) w in
  fst run = Return tt
  /\ users (session (snd run)) = users store_namesake
  /\ has_default_admin (session (snd run)) = false.
Proof.
  cbv zeta. split; [|split]; vm_compute; reflexivity.
Qed.

(** While the application is up in a run from the empty store, the store
    holds the default admin. *)
Lemma default_admin_while_up
    (hmac_sha256 : string -> string * gmap string Json -> string)
    (events : list Event) :
  up (run hmac_sha256 events initial) = true ->
  has_default_admin (session (world (run hmac_sha256 events initial))) = true.
Proof.
  intros Hup.
  destruct (run_invariant hmac_sha256 events initial initial_invariant)
    as [_ [Hadm | [Hdown _]]]; [exact Hadm | congruence].
Qed.

(** * Further properties of the lockout tracker *)

Lemma seconds_window (now t : datetime) :
  0 <= now - t < us_per_day ->
  (seconds (datetime_sub now t) <? LOCKOUT_SECONDS)
  = (now - t <? secs 1800).
Proof.
  intros Hday.
  unfold datetime_sub, timedelta_of_us, LOCKOUT_SECONDS, secs; simpl.
  rewrite Z.mod_small by exact Hday.
  unfold us_per_day, us_per_second in *.
  destruct (Z.ltb_spec (now - t) (1800 * 1000000));
    [apply Z.ltb_lt | apply Z.ltb_ge].
  - apply Z.div_lt_upper_bound; lia.
  - apply Z.div_le_lower_bound; lia.
Qed.

(** Between 30 minutes and one day after the last failure the check lets
    the attempt through and the record is dropped. *)
Lemma window_elapsed (now : datetime) (name : string)
    (fa : gmap string (Z * datetime)) (attempts : Z) (lock_time : datetime) :
  fa !! name = Some (attempts, lock_time) ->
  3 <= attempts ->
  secs 1800 <= now - lock_time < us_per_day ->
  locked now name fa = false /\ after_check name fa = delete name fa.
Proof.
  intros Hrec Hcount Hwin. unfold locked, after_check. rewrite Hrec.
  assert (Hthr : (LOCKOUT_THRESHOLD <=? attempts) = true)
    by (apply Z.leb_le; exact Hcount).
  rewrite Hthr, seconds_window
    by (unfold secs, us_per_second, us_per_day in *; lia).
  split; [|reflexivity].
  cbn [andb]. apply Z.ltb_ge. lia.
Qed.

Lemma after_check_other (name other : string)
    (fa : gmap string (Z * datetime)) :
  other <> name -> after_check name fa !! other = fa !! other.
Proof.
  intros Hne. unfold after_check.
  destruct (fa !! name) as [[a t]|]; [|reflexivity].
  destruct (LOCKOUT_THRESHOLD <=? a); [|reflexivity].
  apply lookup_delete_ne. congruence.
Qed.

(** The dict after a call of [verify_pin], whatever its outcome. *)
Lemma verify_pin_dict (now_check now_fail : datetime) (name pin : string)
    (w : World) :
  let fa := failed_attempts w in
  let fa' := failed_attempts (snd (verify_pin now_check now_fail name pin w)) in
  fa' = fa
  \/ fa' = delete name (after_check name fa)
  \/ (locked now_check name fa = false
      /\ fa' = after_failure now_fail name (after_check name fa)).
Proof.
  cbv zeta. rewrite verify_pin_run.
  destruct (locked now_check name (failed_attempts w)); [by left|].
  cbv zeta.
  destruct (List.find _ _) as [u|];
    [destruct (String.eqb (pin_code u) pin)|]; cbn [snd];
    [right; left | right; right | right; right]; by try split.
Qed.

(** X1. A call of [verify_pin] for one name, whatever its outcome, leaves
    the records of all other names as they were. *)
Theorem verify_pin_other_names_untouched
    (now_check now_fail : datetime) (name pin other : string) (w : World) :
  other <> name ->
  failed_attempts (snd (verify_pin now_check now_fail name pin w)) !! other
  = failed_attempts w !! other.
Proof.
  intros Hne.
  destruct (verify_pin_dict now_check now_fail name pin w)
    as [-> | [-> | [_ ->]]].
  - reflexivity.
  - rewrite lookup_delete_ne by congruence. by apply after_check_other.
  - unfold after_failure. rewrite lookup_insert_ne by congruence.
    by apply after_check_other.
Qed.

Lemma verify_pin_other_names_untouched_witness :
  let w := world_of {["Grace Hopper" := (2, secs 5)]} store_ada in
  "Grace Hopper" <> "Ada Lovelace"
  /\ failed_attempts (snd (verify_pin (secs 9) (secs 9) "Ada Lovelace" "0000" w))
       !! "Grace Hopper" = Some (2, secs 5).
Proof.
  intros w.
  assert (H : "Grace Hopper" <> "Ada Lovelace") by discriminate.
  split; [exact H|].
  exact (eq_trans
           (verify_pin_other_names_untouched (secs 9) (secs 9) "Ada Lovelace"
              "0000" "Grace Hopper" w H)
           eq_refl).
Defined.

(** X2. When every record of the dict has a count between 1 and 3, every
    record has one after a call of [verify_pin], whatever its outcome. *)
Theorem verify_pin_keeps_counts_bounded
    (now_check now_fail : datetime) (name pin : string) (w : World) :
  (forall n a t, failed_attempts w !! n = Some (a, t) -> 1 <= a <= 3) ->
  forall n a t,
    failed_attempts (snd (verify_pin now_check now_fail name pin w)) !! n
    = Some (a, t) ->
    1 <= a <= 3.
Proof.
  intros Hbound n a t.
  assert (Hchecked : forall m b s,
            after_check name (failed_attempts w) !! m = Some (b, s) ->
            1 <= b <= 3).
  { intros m b s. unfold after_check.
    destruct (failed_attempts w !! name) as [[c r]|] eqn:E;
      [|by apply Hbound].
    destruct (LOCKOUT_THRESHOLD <=? c); [|by apply Hbound].
    intros Hm. apply lookup_delete_Some in Hm as [_ Hm]. by eapply Hbound. }
  destruct (verify_pin_dict now_check now_fail name pin w)
    as [-> | [-> | [Hfree ->]]].
  - apply Hbound.
  - intros Hm. apply lookup_delete_Some in Hm as [_ Hm]. by eapply Hchecked.
  - unfold after_failure.
    destruct (decide (n = name)) as [->|Hne].
    + rewrite lookup_insert_eq. intros [= <- <-].
      unfold after_check, locked in *.
      destruct (failed_attempts w !! name) as [[c r]|] eqn:E;
        [|rewrite E; lia].
      destruct (Z.leb_spec LOCKOUT_THRESHOLD c) as [Hge|Hlt].
      * rewrite lookup_delete_eq. lia.
      * rewrite E. specialize (Hbound name c r E).
        unfold LOCKOUT_THRESHOLD in Hlt. lia.
    + rewrite lookup_insert_ne by congruence. by apply Hchecked.
Qed.

Lemma verify_pin_keeps_counts_bounded_witness :
  let w := world_of {["Ada Lovelace" := (2, secs 5)]} store_ada in
  (forall n a t, failed_attempts w !! n = Some (a, t) -> 1 <= a <= 3)
  /\ failed_attempts (snd (verify_pin (secs 9) (secs 9) "Ada Lovelace" "0000" w))
       !! "Ada Lovelace" = Some (3, secs 9)
  /\ 1 <= 3 <= 3.
Proof.
  intros w.
  assert (H : forall n a t,
            failed_attempts w !! n = Some (a, t) -> 1 <= a <= 3).
  { intros n a t Hn. subst w. cbn [failed_attempts world_of] in Hn.
    apply lookup_singleton_Some in Hn as [_ [= <- _]]. lia. }
  assert (E : failed_attempts
                (snd (verify_pin (secs 9) (secs 9) "Ada Lovelace" "0000" w))
                !! "Ada Lovelace" = Some (3, secs 9)) by reflexivity.
  split; [exact H|]. split; [exact E|].
  exact (verify_pin_keeps_counts_bounded (secs 9) (secs 9) "Ada Lovelace"
           "0000" w H "Ada Lovelace" 3 (secs 9) E).
Defined.

(** A pattern that matches some text has a character after each of its
    backslashes: a name under which a row is found is one the store accepts
    as a pattern, NUL characters apart. *)
Lemma like_ci_escapes_closed (n : nat) :
  forall p s,
    (String.length p <= n)%nat -> like_ci p s = true ->
    escapes_closed p = true.
Proof.
  induction n as [|n IH]; intros p s Hlen.
  - destruct p; [reflexivity | simpl in Hlen; lia].
  - destruct p as [|c p']; [reflexivity|].
    cbn [like_ci escapes_closed]. simpl in Hlen.
    destruct (Ascii.eqb c "%"%char) eqn:Epct.
    + assert (c <> "\"%char)
        by (apply Ascii.eqb_eq in Epct; subst; discriminate).
      replace (Ascii.eqb c "\"%char) with false
        by (symmetry; by apply Ascii.eqb_neq).
      induction s as [|d s IHs].
      * rewrite orb_false_r. apply IH. lia.
      * intros H0. apply orb_true_iff in H0 as [H0|H0];
          [apply (IH p' (String d s)); [lia | exact H0] | by apply IHs].
    + destruct (Ascii.eqb c "_"%char) eqn:Eund.
      * assert (c <> "\"%char)
          by (apply Ascii.eqb_eq in Eund; subst; discriminate).
        replace (Ascii.eqb c "\"%char) with false
          by (symmetry; by apply Ascii.eqb_neq).
        destruct s as [|d s]; [discriminate|]. apply IH. lia.
      * destruct (Ascii.eqb c "\"%char).
        -- destruct p' as [|e p'']; [discriminate|].
           destruct s as [|d s]; [discriminate|].
           intros H0. apply andb_true_iff in H0 as [_ H0].
           apply (IH p'' s); [simpl in Hlen; lia | exact H0].
        -- destruct s as [|d s]; [discriminate|].
           intros H0. apply andb_true_iff in H0 as [_ H0].
           apply (IH p' s); [lia | exact H0].
Qed.

Lemma ilike_escapes_closed (column pattern : string) :
  ilike column pattern = true -> escapes_closed pattern = true.
Proof.
  unfold ilike. intros H.
  exact (like_ci_escapes_closed (String.length pattern) pattern column
           (Nat.le_refl _) H).
Qed.

(** X3. A record with three failures or more whose last failure is at
    least 30 minutes and less than a day old does not stop the attempt: a
    PIN that equals the one of the first row matching the name is accepted
    and the record of the name is removed. *)
Theorem correct_pin_after_window_is_accepted
    (now_check now_fail : datetime) (name pin : string) (w : World)
    (attempts : Z) (lock_time : datetime) (u : User) :
  failed_attempts w !! name = Some (attempts, lock_time) ->
  3 <= attempts ->
  secs 1800 <= now_check - lock_time < us_per_day ->
  List.find (where_ (WhereNameIlike name)) (users (session w)) = Some u ->
  pin_code u = pin ->
  fst (verify_pin now_check now_fail name pin w) = Return u
  /\ failed_attempts (snd (verify_pin now_check now_fail name pin w))
     = delete name (failed_attempts w).
Proof.
  intros Hrec Hcount Hwin Hfind Hpin.
  destruct (window_elapsed _ _ _ _ _ Hrec Hcount Hwin) as [Hfree Hchecked].
  rewrite verify_pin_run, Hfree. cbv zeta. rewrite Hfind, Hchecked.
  replace (String.eqb (pin_code u) pin) with true
    by (symmetry; apply String.eqb_eq; exact Hpin).
  split; [reflexivity|]. cbn [snd with_failed failed_attempts].
  apply delete_delete_eq.
Qed.

Lemma correct_pin_after_window_is_accepted_witness :
  let w := world_of {["ada lovelace" := (3, 0)]} store_ada in
  (failed_attempts w !! "ada lovelace" = Some (3, 0)
   /\ 3 <= 3
   /\ secs 1800 <= secs 1800 - 0 < us_per_day
   /\ List.find (where_ (WhereNameIlike "ada lovelace")) (users (session w))
      = Some ada
   /\ pin_code ada = "1234")
  /\ fst (verify_pin (secs 1800) (secs 1801) "ada lovelace" "1234" w)
     = Return ada
  /\ failed_attempts (snd (verify_pin (secs 1800) (secs 1801) "ada lovelace"
                             "1234" w))
     = delete "ada lovelace" (failed_attempts w).
Proof.
  intros w.
  assert (H1 : failed_attempts w !! "ada lovelace" = Some (3, 0))
    by reflexivity.
  assert (H2 : 3 <= 3) by lia.
  assert (H3 : secs 1800 <= secs 1800 - 0 < us_per_day)
    by (unfold secs, us_per_day, us_per_second; lia).
  assert (H4 : List.find (where_ (WhereNameIlike "ada lovelace"))
                 (users (session w)) = Some ada) by reflexivity.
  assert (H5 : pin_code ada = "1234") by reflexivity.
  split; [auto 6|].
  exact (correct_pin_after_window_is_accepted (secs 1800) (secs 1801)
           "ada lovelace" "1234" w 3 0 ada H1 H2 H3 H4 H5).
Defined.

(** X4. Under the same record, an attempt under a name that the store
    accepts as a pattern and that is rejected on its credentials starts
    the count again: the error is [InvalidPin] and the record of the name
    becomes one failure at the time of this attempt. *)
Theorem wrong_pin_after_window_restarts_count
    (now_check now_fail : datetime) (name pin : string) (w : World)
    (attempts : Z) (lock_time : datetime) :
  accepted_pattern name = true ->
  failed_attempts w !! name = Some (attempts, lock_time) ->
  3 <= attempts ->
  secs 1800 <= now_check - lock_time < us_per_day ->
  (forall u,
     List.find (where_ (WhereNameIlike name)) (users (session w)) = Some u ->
     pin_code u <> pin) ->
  fst (verify_pin now_check now_fail name pin w) = Raise InvalidPin
  /\ failed_attempts (snd (verify_pin now_check now_fail name pin w))
     = <[name := (1, now_fail)]> (failed_attempts w).
Proof.
  intros _ Hrec Hcount Hwin Hwrong.
  destruct (window_elapsed _ _ _ _ _ Hrec Hcount Hwin) as [Hfree Hchecked].
  assert (Hdict : after_failure now_fail name
                    (after_check name (failed_attempts w))
                  = <[name := (1, now_fail)]> (failed_attempts w)).
  { rewrite Hchecked. unfold after_failure.
    rewrite lookup_delete_eq. apply insert_delete_eq. }
  rewrite verify_pin_run, Hfree. cbv zeta.
  destruct (List.find _ _) as [u|] eqn:Hfind.
  - replace (String.eqb (pin_code u) pin) with false
      by (symmetry; apply String.eqb_neq; by apply Hwrong).
    split; [reflexivity|]. exact Hdict.
  - split; [reflexivity|]. exact Hdict.
Qed.

Lemma wrong_pin_after_window_restarts_count_witness :
  let w := world_of {["Ada Lovelace" := (3, 0)]} store_ada in
  (accepted_pattern "Ada Lovelace" = true
   /\ failed_attempts w !! "Ada Lovelace" = Some (3, 0)
   /\ 3 <= 3
   /\ secs 1800 <= secs 3600 - 0 < us_per_day
   /\ (forall u,
         List.find (where_ (WhereNameIlike "Ada Lovelace")) (users (session w))
         = Some u -> pin_code u <> "0000"))
  /\ fst (verify_pin (secs 3600) (secs 3601) "Ada Lovelace" "0000" w)
     = Raise InvalidPin
  /\ failed_attempts (snd (verify_pin (secs 3600) (secs 3601) "Ada Lovelace"
                             "0000" w))
     = <["Ada Lovelace" := (1, secs 3601)]> (failed_attempts w).
Proof.
  intros w.
  assert (H0 : accepted_pattern "Ada Lovelace" = true) by reflexivity.
  assert (H1 : failed_attempts w !! "Ada Lovelace" = Some (3, 0))
    by reflexivity.
  assert (H2 : 3 <= 3) by lia.
  assert (H3 : secs 1800 <= secs 3600 - 0 < us_per_day)
    by (unfold secs, us_per_day, us_per_second; lia).
  assert (H4 : forall u,
            List.find (where_ (WhereNameIlike "Ada Lovelace"))
              (users (session w)) = Some u -> pin_code u <> "0000").
  { intros u [= <-]. discriminate. }
  split; [auto 7|].
  exact (wrong_pin_after_window_restarts_count (secs 3600) (secs 3601)
           "Ada Lovelace" "0000" w 3 0 H0 H1 H2 H3 H4).
Defined.

(** * Further properties of login and registration *)

Lemma find_app_first {A} (f : A -> bool) (l l' : list A) (x : A) :
  List.find f l = Some x -> List.find f (l ++ l') = Some x.
Proof.
  induction l as [|y l IH]; simpl; [discriminate|].
  destruct (f y); [by intros [= <-] | exact IH].
Qed.

Lemma find_app_none {A} (f : A -> bool) (l l' : list A) :
  List.find f l = None -> List.find f (l ++ l') = List.find f l'.
Proof.
  induction l as [|y l IH]; simpl; [reflexivity|].
  destruct (f y); [discriminate | exact IH].
Qed.

Lemma ilike_percent (column : string) : ilike column "%" = true.
Proof.
  unfold ilike. cbn [like_ci]. cbn [Ascii.eqb Bool.eqb].
  induction column as [|c column IH]; [reflexivity|].
  cbn [like_ci orb]. exact IH.
Qed.

(** X5. The name is used as a pattern: an attempt under the name "%",
    with no record for that name, is judged on the first row of the table
    whatever its name, and is accepted when the PIN is that row's. *)
Theorem percent_logs_in_as_first_row
    (now_check now_fail : datetime) (pin : string) (w : World)
    (u : User) (rest : list User) :
  users (session w) = u :: rest ->
  failed_attempts w !! "%" = None ->
  pin_code u = pin ->
  fst (verify_pin now_check now_fail "%" pin w) = Return u.
Proof.
  intros Husers Hrec Hpin.
  rewrite verify_pin_run. unfold locked. rewrite Hrec, Husers. cbv zeta.
  cbn [List.find where_]. rewrite ilike_percent.
  replace (String.eqb (pin_code u) pin) with true
    by (symmetry; apply String.eqb_eq; exact Hpin).
  reflexivity.
Qed.

Lemma percent_logs_in_as_first_row_witness :
  let w := world_of ∅ store_ada in
  (users (session w) = ada :: []
   /\ failed_attempts w !! "%" = None
   /\ pin_code ada = "1234")
  /\ fst (verify_pin (secs 1) (secs 1) "%" "1234" w) = Return ada.
Proof.
  intros w.
  assert (H1 : users (session w) = ada :: []) by reflexivity.
  assert (H2 : failed_attempts w !! "%" = None) by reflexivity.
  assert (H3 : pin_code ada = "1234") by reflexivity.
  split; [auto|].
  exact (percent_logs_in_as_first_row (secs 1) (secs 1) "1234" w ada [] H1 H2 H3).
Defined.

(** What a call of [register_user] that returns has done. *)
Lemma register_user_return (rand : nat -> Z) (now : datetime) (name : string)
    (w w' : World) (reg : Registration) :
  register_user rand now name w = (Return reg, w') ->
  reg_user reg = {| id := next_id (session w); full_name := name;
                    pin_code := reg_pin reg; role := "user";
                    created_at := now |}
  /\ users (session w') = (users (session w) ++ [reg_user reg])%list
  /\ next_id (session w') = next_id (session w) + 1
  /\ failed_attempts w' = failed_attempts w
  /\ taken (session w) name (reg_pin reg) = false
  /\ exists k, (k < 100)%nat /\ reg_pin reg = generate_pin (rand k).
Proof.
  destruct (register_user_run rand now name w)
    as (attempts & w1 & _ & _ & _ & Hfree & ->).
  destruct (Nat.ltb_spec attempts 100) as [Hlt|Hge]; [|discriminate].
  cbv zeta. intros [= <- <-]. cbn [reg_user reg_pin session users next_id
                                   failed_attempts].
  repeat (split; [by auto|]). by exists attempts.
Qed.

(** X6. Register, then log in.  When no row of the table matches the name
    as a pattern, the name matches itself and has no lockout record, a
    registration that returns is followed by a login under the same name
    and the issued PIN that is accepted as the new user. *)
Theorem register_then_login
    (rand : nat -> Z) (now now_check now_fail : datetime) (name : string)
    (w w' : World) (reg : Registration) :
  register_user rand now name w = (Return reg, w') ->
  List.find (where_ (WhereNameIlike name)) (users (session w)) = None ->
  ilike name name = true ->
  failed_attempts w !! name = None ->
  fst (verify_pin now_check now_fail name (reg_pin reg) w')
  = Return (reg_user reg).
Proof.
  intros Hreg Hnone Hself Hrec.
  destruct (register_user_return _ _ _ _ _ _ Hreg)
    as (Huser & Husers & _ & Hfa & _ & _).
  rewrite verify_pin_run. unfold locked. rewrite Hfa, Hrec. cbv zeta.
  rewrite Husers, (find_app_none _ _ _ Hnone).
  cbn [List.find where_].
  replace (full_name (reg_user reg)) with name by (rewrite Huser; reflexivity).
  rewrite Hself.
  replace (pin_code (reg_user reg)) with (reg_pin reg)
    by (rewrite Huser; reflexivity).
  rewrite String.eqb_refl. reflexivity.
Qed.

Lemma register_then_login_witness :
  let w := world_of ∅ store_ada in
  let run := register_user (fun _ => 42) (secs 1) "Grace Hopper" w in
  let reg := {| reg_pin := "0042";
                reg_user := {| id := 2; full_name := "Grace Hopper";
                               pin_code := "0042"; role := "user";
                               created_at := secs 1 |} |} in
  (run = (Return reg, snd run)
   /\ List.find (where_ (WhereNameIlike "Grace Hopper")) (users (session w))
      = None
   /\ ilike "Grace Hopper" "Grace Hopper" = true
   /\ failed_attempts w !! "Grace Hopper" = None)
  /\ fst (verify_pin (secs 2) (secs 2) "Grace Hopper" "0042" (snd run))
     = Return (reg_user reg).
Proof.
  intros w run reg.
  assert (H1 : run = (Return reg, snd run)) by (vm_compute; reflexivity).
  assert (H2 : List.find (where_ (WhereNameIlike "Grace Hopper"))
                 (users (session w)) = None) by reflexivity.
  assert (H3 : ilike "Grace Hopper" "Grace Hopper" = true) by reflexivity.
  assert (H4 : failed_attempts w !! "Grace Hopper" = None) by reflexivity.
  split; [auto|].
  exact (register_then_login (fun _ => 42) (secs 1) (secs 2) (secs 2)
           "Grace Hopper" w (snd run) reg H1 H2 H3 H4).
Defined.

(** X7. A second user of a name cannot log in.  When the first row that
    matches the name already carries exactly that name, a registration
    under the name returns a PIN, and a login under the name with that PIN
    is rejected with [InvalidPin]: only the first matching row is
    compared. *)
Theorem second_holder_of_a_name_cannot_log_in
    (rand : nat -> Z) (now now_check now_fail : datetime) (name : string)
    (w w' : World) (reg : Registration) (first : User) :
  register_user rand now name w = (Return reg, w') ->
  List.find (where_ (WhereNameIlike name)) (users (session w)) = Some first ->
  full_name first = name ->
  failed_attempts w !! name = None ->
  fst (verify_pin now_check now_fail name (reg_pin reg) w') = Raise InvalidPin
  /\ In (reg_user reg) (users (session w'))
  /\ full_name (reg_user reg) = name
  /\ pin_code (reg_user reg) = reg_pin reg.
Proof.
  intros Hreg Hfirst Hname Hrec.
  destruct (register_user_return _ _ _ _ _ _ Hreg)
    as (Huser & Husers & _ & Hfa & Hfree & _).
  assert (Hpin : String.eqb (pin_code first) (reg_pin reg) = false).
  { unfold taken in Hfree.
    destruct (List.find (where_ (WhereNameAndPin name (reg_pin reg)))
                (users (session w))) eqn:Hfind; [discriminate|].
    apply find_some in Hfirst as [Hin _].
    pose proof (find_none _ _ Hfind first Hin) as Hno.
    cbn [where_] in Hno. rewrite Hname, String.eqb_refl in Hno.
    exact Hno. }
  split.
  - rewrite verify_pin_run. unfold locked. rewrite Hfa, Hrec. cbv zeta.
    rewrite Husers, (find_app_first _ _ _ _ Hfirst), Hpin. reflexivity.
  - rewrite Husers, Huser. cbn [full_name pin_code].
    split; [|by split]. apply in_or_app. right. by left.
Qed.

Lemma second_holder_of_a_name_cannot_log_in_witness :
  let w := world_of ∅ store_ada in
  let run := register_user (fun _ => 42) (secs 1) "Ada Lovelace" w in
  let reg := {| reg_pin := "0042";
                reg_user := {| id := 2; full_name := "Ada Lovelace";
                               pin_code := "0042"; role := "user";
                               created_at := secs 1 |} |} in
  (run = (Return reg, snd run)
   /\ List.find (where_ (WhereNameIlike "Ada Lovelace")) (users (session w))
      = Some ada
   /\ full_name ada = "Ada Lovelace"
   /\ failed_attempts w !! "Ada Lovelace" = None)
  /\ fst (verify_pin (secs 2) (secs 2) "Ada Lovelace" "0042" (snd run))
     = Raise InvalidPin.
Proof.
  intros w run reg.
  assert (H1 : run = (Return reg, snd run)) by (vm_compute; reflexivity).
  assert (H2 : List.find (where_ (WhereNameIlike "Ada Lovelace"))
                 (users (session w)) = Some ada) by reflexivity.
  assert (H3 : full_name ada = "Ada Lovelace") by reflexivity.
  assert (H4 : failed_attempts w !! "Ada Lovelace" = None) by reflexivity.
  split; [auto|].
  exact (proj1 (second_holder_of_a_name_cannot_log_in (fun _ => 42) (secs 1)
                  (secs 2) (secs 2) "Ada Lovelace" w (snd run) reg ada
                  H1 H2 H3 H4)).
Defined.

(** * Further properties of registration *)




(** * Further properties of PIN generation *)

Lemma pretty_N_char_digit (x : N) :
  (x < 10)%N ->
  is_digit (pretty_N_char x) = true
  /\ Z.of_nat (nat_of_ascii (pretty_N_char x)) - 48 = Z.of_N x
  /\ (Ascii.eqb (pretty_N_char x) "+"%char
      || Ascii.eqb (pretty_N_char x) "-"%char) = false.
Proof.
  intros Hx.
  assert (x = 0 \/ x = 1 \/ x = 2 \/ x = 3 \/ x = 4 \/ x = 5 \/ x = 6
          \/ x = 7 \/ x = 8 \/ x = 9)%N as Hcases by lia.
  repeat (destruct Hcases as [-> | Hcases]); try subst x;
    (split; [reflexivity | split; reflexivity]).
Qed.

Lemma pretty_Z_to_N (r : Z) : 0 <= r -> pretty r = pretty (Z.to_N r).
Proof. destruct r; [reflexivity | reflexivity | lia]. Qed.

Lemma zfill_digit_first (c : ascii) (rest : string) :
  (Ascii.eqb c "+"%char || Ascii.eqb c "-"%char) = false ->
  zfill 4 (String c rest)
  = zeros (4 - String.length (String c rest)) +:+ String c rest.
Proof. intros H. unfold zfill. by rewrite H. Qed.

(** The PIN of a draw from 0 to 9999 is made of the four decimal digits
    of the draw. *)
Lemma generate_pin_digits (r : Z) :
  0 <= r <= 9999 -> generate_pin r = pin_digits (Z.to_N r).
Proof.
  intros Hr. unfold generate_pin. rewrite pretty_Z_to_N by lia.
  assert (Z.to_N r < 10000)%N as Hn by lia.
  generalize dependent (Z.to_N r). clear r Hr. intros n Hn.
  assert (Hmod : forall m, (m mod 10 < 10)%N) by (intros m; apply N.mod_lt; lia).
  unfold pin_digits.
  assert (n = 0 \/ 0 < n < 10 \/ 10 <= n < 100 \/ 100 <= n < 1000
          \/ 1000 <= n < 10000)%N as [-> | [H | [H | [H | H]]]] by lia.
  - reflexivity.
  - unfold pretty, pretty_N. rewrite decide_False by lia.
    rewrite pretty_N_go_step by lia.
    rewrite (N.div_small n 10) by lia. rewrite pretty_N_go_0.
    rewrite zfill_digit_first by apply pretty_N_char_digit, Hmod.
    rewrite (N.div_small n 1000), (N.div_small n 100) by lia.
    reflexivity.
  - unfold pretty, pretty_N. rewrite decide_False by lia.
    rewrite pretty_N_go_step by lia.
    assert (0 < n / 10 < 10)%N
      by (split; [apply N.div_str_pos; lia | apply N.Div0.div_lt_upper_bound; lia]).
    rewrite pretty_N_go_step by lia.
    rewrite (N.div_small (n / 10) 10) by lia. rewrite pretty_N_go_0.
    rewrite zfill_digit_first by apply pretty_N_char_digit, Hmod.
    rewrite (N.div_small n 1000), (N.div_small n 100) by lia.
    reflexivity.
  - unfold pretty, pretty_N. rewrite decide_False by lia.
    rewrite pretty_N_go_step by lia.
    assert (10 <= n / 10 < 100)%N
      by (split; [apply N.div_le_lower_bound; lia
                 | apply N.Div0.div_lt_upper_bound; lia]).
    rewrite pretty_N_go_step by lia.
    assert (0 < n / 10 / 10 < 10)%N
      by (split; [apply N.div_str_pos; lia | apply N.Div0.div_lt_upper_bound; lia]).
    rewrite pretty_N_go_step by lia.
    rewrite (N.div_small (n / 10 / 10) 10) by lia. rewrite pretty_N_go_0.
    rewrite zfill_digit_first by apply pretty_N_char_digit, Hmod.
    rewrite (N.div_small n 1000) by lia.
    rewrite !N.Div0.div_div. reflexivity.
  - unfold pretty, pretty_N. rewrite decide_False by lia.
    rewrite pretty_N_go_step by lia.
    assert (100 <= n / 10 < 1000)%N
      by (split; [apply N.div_le_lower_bound; lia
                 | apply N.Div0.div_lt_upper_bound; lia]).
    rewrite pretty_N_go_step by lia.
    assert (10 <= n / 10 / 10 < 100)%N
      by (split; [apply N.div_le_lower_bound; lia
                 | apply N.Div0.div_lt_upper_bound; lia]).
    rewrite pretty_N_go_step by lia.
    assert (0 < n / 10 / 10 / 10 < 10)%N
      by (split; [apply N.div_str_pos; lia | apply N.Div0.div_lt_upper_bound; lia]).
    rewrite pretty_N_go_step by lia.
    rewrite (N.div_small (n / 10 / 10 / 10) 10) by lia. rewrite pretty_N_go_0.
    rewrite zfill_digit_first by apply pretty_N_char_digit, Hmod.
    rewrite !N.Div0.div_div. reflexivity.
Qed.

Lemma generate_pin_in_range (r : Z) :
  0 <= r <= 9999 ->
  four_digits (generate_pin r) = true /\ pin_value (generate_pin r) = r.
Proof.
  intros Hr. rewrite generate_pin_digits by exact Hr.
  assert (Z.to_N r < 10000)%N as Hn by lia.
  assert (Z.of_N (Z.to_N r) = r) as Hback by lia.
  revert Hback. generalize dependent (Z.to_N r). intros n Hn Hback.
  assert (Hmod : forall m, (m mod 10 < 10)%N) by (intros m; apply N.mod_lt; lia).
  destruct (pretty_N_char_digit _ (Hmod (n / 1000)%N)) as (D3 & V3 & _).
  destruct (pretty_N_char_digit _ (Hmod (n / 100)%N)) as (D2 & V2 & _).
  destruct (pretty_N_char_digit _ (Hmod (n / 10)%N)) as (D1 & V1 & _).
  destruct (pretty_N_char_digit _ (Hmod n)) as (D0 & V0 & _).
  split.
  - unfold four_digits, pin_digits.
    cbn [String.length Nat.eqb list_ascii_of_string forallb andb].
    by rewrite D3, D2, D1, D0.
  - unfold pin_value, pin_digits. cbn [list_ascii_of_string fold_left].
    rewrite V3, V2, V1, V0. rewrite <- Hback.
    rewrite !N2Z.inj_mod, !N2Z.inj_div. change (Z.of_N 10) with 10.
    change (Z.of_N 100) with 100. change (Z.of_N 1000) with 1000.
    assert (0 <= Z.of_N n < 10000) by lia.
    generalize dependent (Z.of_N n). intros z _ Hz.
    Z.div_mod_to_equations. lia.
Qed.

(** X10. For every result that [random.randint(0, 9999)] can give,
    [generate_pin] returns a string of exactly four decimal digits. *)
Theorem generate_pin_has_four_digits (r : Z) :
  0 <= r <= 9999 ->
  String.length (generate_pin r) = 4%nat
  /\ forallb is_digit (list_ascii_of_string (generate_pin r)) = true.
Proof.
  intros Hr. destruct (generate_pin_in_range r Hr) as [Hfour _].
  apply andb_true_iff in Hfour as [Hlen Hdigits].
  split; [by apply Nat.eqb_eq | exact Hdigits].
Qed.

Lemma generate_pin_has_four_digits_witness :
  0 <= 7 <= 9999
  /\ generate_pin 7 = "0007"
  /\ String.length (generate_pin 7) = 4%nat
  /\ forallb is_digit (list_ascii_of_string (generate_pin 7)) = true.
Proof.
  assert (H : 0 <= 7 <= 9999) by lia.
  split; [exact H|]. split; [reflexivity|].
  exact (generate_pin_has_four_digits 7 H).
Defined.

(** X11. Different draws give different PINs: on the range of the random
    source [generate_pin] is one-to-one, so there are 10000 PINs. *)
Theorem generate_pin_is_one_to_one (r r' : Z) :
  0 <= r <= 9999 ->
  0 <= r' <= 9999 ->
  generate_pin r = generate_pin r' ->
  r = r'.
Proof.
  intros Hr Hr' Heq.
  destruct (generate_pin_in_range r Hr) as [_ <-].
  destruct (generate_pin_in_range r' Hr') as [_ <-].
  by rewrite Heq.
Qed.

Lemma generate_pin_is_one_to_one_witness :
  (0 <= 42 <= 9999 /\ 0 <= 40 + 2 <= 9999
   /\ generate_pin 42 = generate_pin (40 + 2))
  /\ 42 = 40 + 2.
Proof.
  assert (H1 : 0 <= 42 <= 9999) by lia.
  assert (H2 : 0 <= 40 + 2 <= 9999) by lia.
  assert (H3 : generate_pin 42 = generate_pin (40 + 2)) by reflexivity.
  split; [auto|].
  exact (generate_pin_is_one_to_one 42 (40 + 2) H1 H2 H3).
Defined.

(** X12. When the random source stays within 0..9999 and every stored PIN
    has four digits, every stored PIN has four digits after a call of
    [register_user], whatever its outcome. *)
Theorem register_user_keeps_pins_four_digits
    (rand : nat -> Z) (now : datetime) (name : string) (w : World) :
  (forall k, 0 <= rand k <= 9999) ->
  (forall u, In u (users (session w)) -> four_digits (pin_code u) = true) ->
  forall u, In u (users (session (snd (register_user rand now name w)))) ->
            four_digits (pin_code u) = true.
Proof.
  intros Hrand Hstored u.
  destruct (register_user_run rand now name w)
    as (attempts & w1 & (U1 & _ & _) & _ & _ & _ & ->).
  destruct (attempts <? 100)%nat; cbv zeta; cbn [snd session users].
  - intros Hin. apply in_app_or in Hin as [Hin | [<- | []]].
    + by apply Hstored.
    + cbn [pin_code]. apply generate_pin_in_range, Hrand.
  - rewrite U1. apply Hstored.
Qed.

Lemma register_user_keeps_pins_four_digits_witness :
  let w := world_of ∅ store_ada in
  let rand := fun k : nat => Z.of_nat k mod 10000 in
  (forall k, 0 <= rand k <= 9999)
  /\ (forall u, In u (users (session w)) -> four_digits (pin_code u) = true)
  /\ List.map pin_code
       (users (session (snd (register_user rand (secs 1) "Ada Lovelace" w))))
     = ["1234"; "0000"]
  /\ forall u,
       In u (users (session (snd (register_user rand (secs 1)
                                    "Ada Lovelace" w)))) ->
       four_digits (pin_code u) = true.
Proof.
  intros w rand.
  assert (H1 : forall k, 0 <= rand k <= 9999).
  { intros k. unfold rand.
    pose proof (Z.mod_pos_bound (Z.of_nat k) 10000 ltac:(lia)). lia. }
  assert (H2 : forall u, In u (users (session w)) ->
                         four_digits (pin_code u) = true).
  { intros u [<- | []]. reflexivity. }
  split; [exact H1|]. split; [exact H2|].
  split; [vm_compute; reflexivity|].
  exact (register_user_keeps_pins_four_digits rand (secs 1) "Ada Lovelace" w
           H1 H2).
Defined.

(** * Further properties of tokens and of the access guard *)

Section GuardProperties.

Variable hmac_sha256 : string -> string * gmap string Json -> string.

Lemma create_access_token_issued (now : datetime) (u : User) :
  create_access_token hmac_sha256 now
    (token_data (full_name u) (role u) (id u))
  = Return (issued_token hmac_sha256 now u).
Proof. apply create_access_token_run. Qed.

Lemma login_user_run (now_check now_fail now_token : datetime)
    (name pin : string) (w : World) :
  login_user hmac_sha256 now_check now_fail now_token name pin w
  = match verify_pin now_check now_fail name pin w with
    | (Return u, w1) =>
        (Return {| access_token := issued_token hmac_sha256 now_token u;
                   token_type := "bearer";
                   user := user_response u |}, w1)
    | (Raise e, w1) => (Raise e, w1)
    end.
Proof.
  unfold login_user, bind at 1.
  destruct (verify_pin now_check now_fail name pin w) as [[u|e] w1];
    [|reflexivity].
  unfold bind. rewrite create_access_token_issued. reflexivity.
Qed.

Lemma admin_login_run (now_check now_fail now_token : datetime)
    (name pin : string) (w : World) :
  admin_login hmac_sha256 now_check now_fail now_token name pin w
  = match verify_pin now_check now_fail name pin w with
    | (Return u, w1) =>
        if String.eqb (role u) "admin" then
          (Return {| access_token := issued_token hmac_sha256 now_token u;
                     token_type := "bearer";
                     user := user_response u |}, w1)
        else
          (Raise (HTTPException HTTP_403_FORBIDDEN "Admin access required"), w1)
    | (Raise e, w1) => (Raise e, w1)
    end.
Proof.
  unfold admin_login, bind at 1.
  destruct (verify_pin now_check now_fail name pin w) as [[u|e] w1];
    [|reflexivity].
  destruct (String.eqb (role u) "admin"); cbn [negb]; [|reflexivity].
  unfold bind. rewrite create_access_token_issued. reflexivity.
Qed.

Lemma jwt_decode_return (token : Token) (now : datetime)
    (payload : gmap string Json) :
  jwt_decode hmac_sha256 token SECRET_KEY [ALGORITHM] now = Return payload ->
  payload = tok_claims token
  /\ tok_alg token = ALGORITHM
  /\ tok_signature token
     = hmac_sha256 SECRET_KEY (tok_alg token, tok_claims token)
  /\ valid_exp (timegm now) (tok_claims token) = true
  /\ valid_sub (tok_claims token) = true.
Proof.
  unfold jwt_decode.
  destruct (existsb _ _) eqn:Halg; cbn [negb]; [|discriminate].
  destruct (String.eqb (tok_signature token) _) eqn:Hsig; cbn [negb];
    [|discriminate].
  destruct (validate_claims _ _) eqn:Hval; cbn [negb]; [|discriminate].
  intros [= <-].
  apply String.eqb_eq in Hsig.
  cbn [existsb] in Halg. rewrite orb_false_r in Halg.
  apply String.eqb_eq in Halg.
  unfold validate_claims in Hval.
  repeat (apply andb_true_iff in Hval as [Hval ?]).
  by repeat split.
Qed.

(** X13. [get_current_user] returns a row only for a bearer token whose
    algorithm is HS256, whose signature is the keyed hash of its header
    and claims under the secret, whose expiry, when it has one, is not
    past, and whose subject is a string; the row is the first of the table
    whose name is exactly the subject. *)
Theorem get_current_user_accepts_only_valid_tokens
    (credentials : option Token) (now : datetime) (w : World) (u : User) :
  fst (get_current_user hmac_sha256 credentials now w) = Return u ->
  exists token,
    credentials = Some token
    /\ tok_alg token = ALGORITHM
    /\ tok_signature token
       = hmac_sha256 SECRET_KEY (tok_alg token, tok_claims token)
    /\ (forall exp, tok_claims token !! "exp" = Some (JInt exp) ->
                    timegm now <= exp)
    /\ tok_claims token !! "sub" = Some (JStr (full_name u))
    /\ List.find (where_ (WhereName (full_name u))) (users (session w))
       = Some u.
Proof.
  unfold get_current_user.
  destruct credentials as [token|]; [|discriminate].
  destruct (jwt_decode _ _ _ _ _) as [payload|e] eqn:Hdec; [|discriminate].
  apply jwt_decode_return in Hdec as (-> & Halg & Hsig & Hexp & _).
  destruct (tok_claims token !! "sub") as [[|name|n]|] eqn:Hsub;
    try discriminate.
  unfold bind, exec_first.
  destruct (List.find _ _) as [v|] eqn:Hfind; [|discriminate].
  cbn [fst ret]. intros [= ->].
  assert (Hname : full_name u = name).
  { apply find_some in Hfind as [_ Hm]. by apply String.eqb_eq in Hm. }
  exists token. rewrite Hname.
  repeat (split; [done|]). split; [|done].
  intros exp Hlookup. unfold valid_exp in Hexp. rewrite Hlookup in Hexp.
  apply negb_true_iff, Z.ltb_ge in Hexp. lia.
Qed.


Lemma find_by_name_of_member (l : list User) (u : User) :
  In u l ->
  exists v, List.find (where_ (WhereName (full_name u))) l = Some v
            /\ full_name v = full_name u.
Proof.
  intros Hin.
  destruct (List.find (where_ (WhereName (full_name u))) l) as [v|] eqn:Hfind.
  - exists v. split; [reflexivity|].
    apply find_some in Hfind as [_ Hm]. by apply String.eqb_eq in Hm.
  - pose proof (find_none _ _ Hfind u Hin) as Hno. cbn [where_] in Hno.
    rewrite String.eqb_refl in Hno. discriminate Hno.
Qed.

Lemma verify_pin_return (now_check now_fail : datetime) (name pin : string)
    (w w1 : World) (u : User) :
  verify_pin now_check now_fail name pin w = (Return u, w1) ->
  In u (users (session w))
  /\ users (session w1) = users (session w)
  /\ failed_attempts w1 !! name = None.
Proof.
  rewrite verify_pin_run.
  destruct (locked now_check name (failed_attempts w)); [discriminate|].
  cbv zeta.
  destruct (List.find _ _) as [v|] eqn:Hfind; [|discriminate].
  destruct (String.eqb (pin_code v) pin); [|discriminate].
  intros [= <- <-]. apply find_some in Hfind as [Hin _].
  split; [exact Hin|]. split; [reflexivity|]. apply lookup_delete_eq.
Qed.

Lemma issued_token_sub (now : datetime) (u : User) :
  tok_claims (issued_token hmac_sha256 now u) !! "sub"
  = Some (JStr (full_name u)).
Proof. reflexivity. Qed.

(** X15. Log in, then pass the guard.  The token of an accepted login,
    presented on the resulting store at any time up to 24 hours after it
    was issued, is resolved by [get_current_user] to the first row whose
    name is exactly the name of the row that logged in. *)
Theorem login_then_authorize
    (now_check now_fail now_token now : datetime) (name pin : string)
    (w w1 : World) (resp : TokenResponse) :
  login_user hmac_sha256 now_check now_fail now_token name pin w
  = (Return resp, w1) ->
  now <= now_token + 24 * 3600 * us_per_second ->
  exists v,
    fst (get_current_user hmac_sha256 (Some (access_token resp)) now w1)
    = Return v
    /\ full_name v = ur_full_name (user resp)
    /\ List.find (where_ (WhereName (ur_full_name (user resp))))
         (users (session w1)) = Some v.
Proof.
  rewrite login_user_run.
  destruct (verify_pin now_check now_fail name pin w) as [[u|e] w'] eqn:Hv;
    [|discriminate].
  intros [= <- <-] Hwin.
  apply verify_pin_return in Hv as (Hin & Husers & _).
  rewrite <- Husers in Hin.
  destruct (find_by_name_of_member _ _ Hin) as (v & Hfind & Hname).
  exists v. cbn [access_token user user_response ur_full_name].
  split; [|by split].
  unfold get_current_user, issued_token.
  rewrite jwt_decode_issued.
  replace (_ <? _) with false.
  2: { symmetry. apply Z.ltb_ge. apply timegm_mono.
       change (datetime_add now_token (hours ACCESS_TOKEN_EXPIRE_HOURS))
         with (now_token + 86400000000).
       unfold us_per_second in Hwin. lia. }
  change (issued_claims now_token (full_name u) (role u) (id u) !! "sub")
    with (Some (JStr (full_name u))).
  unfold bind, exec_first. rewrite Hfind. reflexivity.
Qed.

(** X16. The same token presented when the whole second of its expiry,
    24 hours after the login, is past is refused with the generic 401, and
    the store is not asked anything. *)
Theorem login_token_expires
    (now_check now_fail now_token now : datetime) (name pin : string)
    (w w1 : World) (resp : TokenResponse) :
  login_user hmac_sha256 now_check now_fail now_token name pin w
  = (Return resp, w1) ->
  now_token + 24 * 3600 * us_per_second + us_per_second <= now ->
  get_current_user hmac_sha256 (Some (access_token resp)) now w1
  = (Raise credentials_exception, w1).
Proof.
  rewrite login_user_run.
  destruct (verify_pin now_check now_fail name pin w) as [[u|e] w'];
    [|discriminate].
  intros [= <- <-] Hlate. cbn [access_token].
  unfold get_current_user.
  rewrite (expired_token_refused hmac_sha256 now_token now
             (full_name u) (role u) (id u) (issued_token hmac_sha256 now_token u)
             (create_access_token_issued now_token u) Hlate).
  reflexivity.
Qed.

End GuardProperties.

Lemma get_current_user_accepts_only_valid_tokens_witness :
  let w := world_of ∅ store_ada in
  let token := issued_token mac_example 0 ada in
  fst (get_current_user mac_example (Some token) (secs 60) w) = Return ada
  /\ exists token',
       Some token = Some token'
       /\ tok_alg token' = ALGORITHM
       /\ tok_signature token'
          = mac_example SECRET_KEY (tok_alg token', tok_claims token')
       /\ (forall exp, tok_claims token' !! "exp" = Some (JInt exp) ->
                       timegm (secs 60) <= exp)
       /\ tok_claims token' !! "sub" = Some (JStr (full_name ada))
       /\ List.find (where_ (WhereName (full_name ada))) (users (session w))
          = Some ada.
Proof.
  intros w token.
  assert (H : fst (get_current_user mac_example (Some token) (secs 60) w)
              = Return ada) by (vm_compute; reflexivity).
  split; [exact H|].
  exact (get_current_user_accepts_only_valid_tokens mac_example (Some token)
           (secs 60) w ada H).
Defined.

Lemma login_then_authorize_witness :
  let w := world_of ∅ store_ada in
  let resp := {| access_token := issued_token mac_example (secs 2) ada;
                 token_type := "bearer";
                 user := user_response ada |} in
  let w1 := snd (login_user mac_example (secs 1) (secs 1) (secs 2)
                   "ada lovelace" "1234" w) in
  (login_user mac_example (secs 1) (secs 1) (secs 2) "ada lovelace" "1234" w
   = (Return resp, w1)
   /\ secs 3600 <= secs 2 + 24 * 3600 * us_per_second)
  /\ exists v,
       fst (get_current_user mac_example (Some (access_token resp))
              (secs 3600) w1) = Return v
       /\ full_name v = ur_full_name (user resp)
       /\ List.find (where_ (WhereName (ur_full_name (user resp))))
            (users (session w1)) = Some v.
Proof.
  intros w resp w1.
  assert (H1 : login_user mac_example (secs 1) (secs 1) (secs 2)
                 "ada lovelace" "1234" w = (Return resp, w1))
    by (vm_compute; reflexivity).
  assert (H2 : secs 3600 <= secs 2 + 24 * 3600 * us_per_second)
    by (unfold secs, us_per_second; lia).
  split; [auto|].
  exact (login_then_authorize mac_example (secs 1) (secs 1) (secs 2)
           (secs 3600) "ada lovelace" "1234" w w1 resp H1 H2).
Defined.

Lemma login_token_expires_witness :
  let w := world_of ∅ store_ada in
  let resp := {| access_token := issued_token mac_example (secs 2) ada;
                 token_type := "bearer";
                 user := user_response ada |} in
  let w1 := snd (login_user mac_example (secs 1) (secs 1) (secs 2)
                   "ada lovelace" "1234" w) in
  (login_user mac_example (secs 1) (secs 1) (secs 2) "ada lovelace" "1234" w
   = (Return resp, w1)
   /\ secs 2 + 24 * 3600 * us_per_second + us_per_second <= secs 86403)
  /\ get_current_user mac_example (Some (access_token resp)) (secs 86403) w1
     = (Raise credentials_exception, w1).
Proof.
  intros w resp w1.
  assert (H1 : login_user mac_example (secs 1) (secs 1) (secs 2)
                 "ada lovelace" "1234" w = (Return resp, w1))
    by (vm_compute; reflexivity).
  assert (H2 : secs 2 + 24 * 3600 * us_per_second + us_per_second
               <= secs 86403)
    by (unfold secs, us_per_second; lia).
  split; [auto|].
  exact (login_token_expires mac_example (secs 1) (secs 1) (secs 2)
           (secs 86403) "ada lovelace" "1234" w w1 resp H1 H2).
Defined.


(** * Further properties of the admin login *)

(** X17. At the admin login a name and PIN that are accepted but belong
    to a row without the admin role get a 403; the verification has been
    done all the same, so no lockout record is left under the name. *)
Theorem admin_login_forbidden_after_verification
    (hmac_sha256 : string -> string * gmap string Json -> string)
    (now_check now_fail now_token : datetime) (name pin : string)
    (w w1 : World) (u : User) :
  verify_pin now_check now_fail name pin w = (Return u, w1) ->
  role u <> "admin" ->
  admin_login hmac_sha256 now_check now_fail now_token name pin w
  = (Raise (HTTPException HTTP_403_FORBIDDEN "Admin access required"), w1)
  /\ failed_attempts w1 !! name = None.
Proof.
  intros Hv Hrole. rewrite admin_login_run, Hv.
  replace (String.eqb (role u) "admin") with false
    by (symmetry; by apply String.eqb_neq).
  split; [reflexivity|].
  by apply verify_pin_return in Hv as (_ & _ & Hrec).
Qed.

Lemma admin_login_forbidden_after_verification_witness :
  let w := world_of {["Ada Lovelace" := (2, 0)]} store_ada in
  let w1 := snd (verify_pin (secs 1) (secs 1) "Ada Lovelace" "1234" w) in
  (verify_pin (secs 1) (secs 1) "Ada Lovelace" "1234" w = (Return ada, w1)
   /\ role ada <> "admin")
  /\ admin_login mac_example (secs 1) (secs 1) (secs 2) "Ada Lovelace" "1234" w
     = (Raise (HTTPException HTTP_403_FORBIDDEN "Admin access required"), w1)
  /\ failed_attempts w1 !! "Ada Lovelace" = None.
Proof.
  intros w w1.
  assert (H1 : verify_pin (secs 1) (secs 1) "Ada Lovelace" "1234" w
               = (Return ada, w1)) by (vm_compute; reflexivity).
  assert (H2 : role ada <> "admin") by discriminate.
  split; [auto|].
  exact (admin_login_forbidden_after_verification mac_example (secs 1)
           (secs 1) (secs 2) "Ada Lovelace" "1234" w w1 ada H1 H2).
Defined.

(** X18. The admin login answers with a token only for a row whose role
    is admin, and then it answers and leaves the world exactly as the user
    login does on the same input. *)
Theorem admin_login_returns_only_admins
    (hmac_sha256 : string -> string * gmap string Json -> string)
    (now_check now_fail now_token : datetime) (name pin : string)
    (w w1 : World) (resp : TokenResponse) :
  admin_login hmac_sha256 now_check now_fail now_token name pin w
  = (Return resp, w1) ->
  ur_role (user resp) = "admin"
  /\ tok_claims (access_token resp) !! "role" = Some (JStr "admin")
  /\ login_user hmac_sha256 now_check now_fail now_token name pin w
     = (Return resp, w1).
Proof.
  rewrite admin_login_run, login_user_run.
  destruct (verify_pin now_check now_fail name pin w) as [[u|e] w'];
    [|discriminate].
  destruct (String.eqb (role u) "admin") eqn:Hrole; [|discriminate].
  apply String.eqb_eq in Hrole.
  intros [= <- <-]. cbn [user user_response ur_role access_token].
  split; [exact Hrole|]. split; [|reflexivity].
  rewrite <- Hrole. reflexivity.
Qed.

Lemma admin_login_returns_only_admins_witness :
  let root := {| id := 1; full_name := "Abiel Robinson"; pin_code := "0000";
                 role := "admin"; created_at := 0 |} in
  let w := world_of ∅ {| users := [root]; next_id := 2; statements := [] |} in
  let resp := {| access_token := issued_token mac_example (secs 2) root;
                 token_type := "bearer";
                 user := user_response root |} in
  let w1 := snd (admin_login mac_example (secs 1) (secs 1) (secs 2)
                   "abiel robinson" "0000" w) in
  admin_login mac_example (secs 1) (secs 1) (secs 2) "abiel robinson" "0000" w
  = (Return resp, w1)
  /\ ur_role (user resp) = "admin"
  /\ tok_claims (access_token resp) !! "role" = Some (JStr "admin")
  /\ login_user mac_example (secs 1) (secs 1) (secs 2) "abiel robinson" "0000" w
     = (Return resp, w1).
Proof.
  intros root w resp w1.
  assert (H : admin_login mac_example (secs 1) (secs 1) (secs 2)
                "abiel robinson" "0000" w = (Return resp, w1))
    by (vm_compute; reflexivity).
  split; [exact H|].
  exact (admin_login_returns_only_admins mac_example (secs 1) (secs 1)
           (secs 2) "abiel robinson" "0000" w w1 resp H).
Defined.

(** * Further properties of start-up *)

Lemma connect_loop_seq (db_ready : nat -> bool) (w : World) :
  forall n a,
    (a + S n = 10)%nat ->
    (connect_loop db_ready (seq a (S n)) w = (Return tt, w)
     /\ exists k, (a <= k < 10)%nat /\ db_ready k = true)
    \/ (connect_loop db_ready (seq a (S n)) w = (Raise OperationalError, w)
        /\ forall k, (a <= k < 10)%nat -> db_ready k = false).
Proof.
  induction n as [|n IH]; intros a Ha.
  - assert (a = 9%nat) as -> by lia. cbn [seq connect_loop].
    destruct (db_ready 9%nat) eqn:H9.
    + left. split; [reflexivity|]. exists 9%nat. split; [lia | exact H9].
    + right. split; [reflexivity|].
      intros k Hk. assert (k = 9%nat) as -> by lia. exact H9.
  - change (seq a (S (S n))) with (a :: seq (S a) (S n)).
    cbn [connect_loop].
    destruct (db_ready a) eqn:Hready.
    + left. split; [reflexivity|]. exists a. split; [lia | exact Hready].
    + replace (Z.of_nat a <? max_retries - 1) with true
        by (symmetry; apply Z.ltb_lt; unfold max_retries; lia).
      destruct (IH (S a) ltac:(lia)) as [[Hrun (k & Hk & Hok)] | [Hrun Hall]].
      * left. split; [exact Hrun|]. exists k. split; [lia | exact Hok].
      * right. split; [exact Hrun|].
        intros k Hk. destruct (decide (k = a)) as [->|Hne];
          [exact Hready | apply Hall; lia].
Qed.

(** X19. Start-up completes exactly when [create_all] succeeds at one of
    its ten attempts; when all ten fail it ends in [OperationalError] and
    the world is as it was: nothing was asked of the store. *)
Theorem lifespan_completes_iff_db_ready
    (db_ready : nat -> bool) (now : datetime) (w : World) :
  (fst (lifespan db_ready now w) = Return tt
   <-> exists k, (k < 10)%nat /\ db_ready k = true)
  /\ ((forall k, (k < 10)%nat -> db_ready k = false) ->
      lifespan db_ready now w = (Raise OperationalError, w)).
Proof.
  assert (Hcases :
    ((exists k, (k < 10)%nat /\ db_ready k = true)
     /\ fst (lifespan db_ready now w) = Return tt)
    \/ ((forall k, (k < 10)%nat -> db_ready k = false)
        /\ lifespan db_ready now w = (Raise OperationalError, w))).
  { remember (lifespan db_ready now w) as r eqn:Hr.
    unfold lifespan, bind at 1 in Hr.
    change (Z.to_nat max_retries) with 10%nat in Hr.
    destruct (connect_loop_seq db_ready w 9 0 eq_refl)
      as [[Hloop (k & Hk & Hok)] | [Hloop Hall]]; rewrite Hloop in Hr.
    - left. split; [exists k; split; [lia | exact Hok]|].
      unfold bind at 1, exec_first at 1 in Hr.
      destruct (List.find _ _); [by subst r|].
      unfold bind, session_add, ret in Hr. by subst r.
    - right. split; [|exact Hr]. intros k Hk. apply Hall. lia. }
  destruct Hcases as [[(k & Hk & Hok) Hret] | [Hall Hraise]].
  - split; [split; [by exists k | done]|].
    intros Hnone. rewrite Hnone in Hok by lia. discriminate Hok.
  - split; [|done]. rewrite Hraise. split; [discriminate|].
    intros (k & Hk & Hok). rewrite Hall in Hok by lia. discriminate Hok.
Qed.

(** X20. Start-up run again changes nothing in the table: after a
    start-up that completed, a second one, whatever its own outcome,
    leaves the rows as the first one left them. *)
Theorem lifespan_twice
    (db_ready db_ready' : nat -> bool) (now now' : datetime) (w w1 : World) :
  lifespan db_ready now w = (Return tt, w1) ->
  users (session (snd (lifespan db_ready' now' w1))) = users (session w1).
Proof.
  intros Hfirst. apply lifespan_return in Hfirst.
  assert (Hnamed : exists u,
            List.find (where_ (WhereName "Abiel Robinson")) (users (session w1))
            = Some u).
  { rewrite Hfirst.
    destruct (List.find _ (users (session w))) as [u|] eqn:Hfind.
    - by exists u.
    - rewrite (find_app_none _ _ _ Hfind). cbn [List.find where_ full_name].
      eexists. reflexivity. }
  destruct Hnamed as [u Hu].
  destruct (lifespan db_ready' now' w1) as [[[]|e] w2] eqn:Hsecond.
  - apply lifespan_return in Hsecond. cbn [snd]. by rewrite Hsecond, Hu.
  - apply lifespan_raise in Hsecond. by subst w2.
Qed.

Lemma lifespan_twice_witness :
  let w := world_of ∅ store_ada in
  let w1 := snd (lifespan (fun _ => true) (secs 1) w) in
  lifespan (fun _ => true) (secs 1) w = (Return tt, w1)
  /\ length (users (session w1)) = 2%nat
  /\ users (session (snd (lifespan (fun k => (3 <=? k)%nat) (secs 9) w1)))
     = users (session w1).
Proof.
  intros w w1.
  assert (H : lifespan (fun _ => true) (secs 1) w = (Return tt, w1))
    by (vm_compute; reflexivity).
  split; [exact H|]. split; [reflexivity|].
  exact (lifespan_twice (fun _ => true) (fun k => (3 <=? k)%nat) (secs 1)
           (secs 9) w w1 H).
Defined.

(** * Further properties of user deletion and of the admin role *)

(** X21. [delete_user] removes rows only for a caller whom the guard
    resolves to a row with the admin role, and only the rows whose key is
    the requested one, which is never the caller's own key: the caller's
    row is still in the table afterwards.  A caller whose row has another
    role gets a 403, and every request that ends in an error leaves the
    table as it was. *)
Theorem delete_user_contract
    (hmac_sha256 : string -> string * gmap string Json -> string)
    (user_id : Z) (credentials : option Token) (now : datetime) (w : World) :
  let run := delete_user hmac_sha256 user_id credentials now w in
  (fst run = Return tt ->
   exists current,
     fst (get_current_user hmac_sha256 credentials now w) = Return current
     /\ role current = "admin"
     /\ user_id <> id current
     /\ users (session (snd run))
        = List.filter (fun v => negb (id v =? user_id)) (users (session w))
     /\ In current (users (session (snd run))))
  /\ (forall e, fst run = Raise e ->
        users (session (snd run)) = users (session w))
  /\ (forall current,
        fst (get_current_user hmac_sha256 credentials now w) = Return current ->
        role current <> "admin" ->
        fst run
        = Raise (HTTPException HTTP_403_FORBIDDEN "Admin access required")).
Proof.
  cbv zeta.
  destruct (get_current_user_run hmac_sha256 credentials now w)
    as [Husers Hin].
  remember (delete_user hmac_sha256 user_id credentials now w) as r eqn:Hr.
  unfold delete_user, bind at 1 in Hr.
  destruct (get_current_user hmac_sha256 credentials now w)
    as [[current|e0] w1]; cbn [fst snd] in *.
  2: { subst r. split; [discriminate|]. split; [|discriminate].
       intros e _. exact Husers. }
  specialize (Hin current eq_refl).
  destruct (String.eqb (role current) "admin") eqn:Hrole; cbn [negb] in Hr.
  2: { subst r. split; [discriminate|]. split; [|reflexivity].
       intros e _. exact Husers. }
  apply String.eqb_eq in Hrole.
  unfold bind at 1, session_get at 1 in Hr.
  destruct (List.find _ _) as [target|] eqn:Hfind.
  2: { subst r. split; [discriminate|]. split.
       - intros e _. exact Husers.
       - intros c [= <-] Hc. congruence. }
  apply find_some in Hfind as [_ Hid]. apply Z.eqb_eq in Hid.
  destruct (id target =? id current) eqn:Hself.
  { subst r. split; [discriminate|]. split.
    - intros e _. exact Husers.
    - intros c [= <-] Hc. congruence. }
  apply Z.eqb_neq in Hself.
  unfold bind, session_delete, ret in Hr. subst r.
  cbn [fst snd session users log_statement failed_attempts].
  split; [|split; [discriminate | intros c [= <-] Hc; congruence]].
  intros _. exists current.
  rewrite Husers, Hid.
  split; [reflexivity|]. split; [exact Hrole|].
  split; [congruence|]. split; [reflexivity|].
  apply filter_In. split; [exact Hin|].
  apply negb_true_iff, Z.eqb_neq. congruence.
Qed.

(** X22. Nobody else becomes admin.  In every run of the application
    from the empty store, a row with the admin role is named
    "Abiel Robinson" and has the PIN "0000": registration only makes
    ordinary users, and no request changes a role. *)
Theorem only_the_default_admin_is_admin
    (hmac_sha256 : string -> string * gmap string Json -> string)
    (events : list Event) (u : User) :
  In u (users (session (world (run hmac_sha256 events initial)))) ->
  role u = "admin" ->
  full_name u = "Abiel Robinson" /\ pin_code u = "0000".
Proof.
  intros Hin Hrole.
  destruct (run_invariant hmac_sha256 events initial initial_invariant)
    as [Hdef _].
  specialize (Hdef u Hin Hrole).
  unfold is_default_admin in Hdef.
  apply andb_true_iff in Hdef as [Hdef _].
  apply andb_true_iff in Hdef as [Hname Hpin].
  split; by apply String.eqb_eq.
Qed.

(** X23. The default admin cannot be removed.  In every run from the
    empty store, whenever the application is up the table holds a row named
    "Abiel Robinson" with PIN "0000" and the admin role, whatever requests
    (registrations, logins, deletions) have been served. *)
Theorem default_admin_is_always_there
    (hmac_sha256 : string -> string * gmap string Json -> string)
    (events : list Event) :
  up (run hmac_sha256 events initial) = true ->
  exists u,
    In u (users (session (world (run hmac_sha256 events initial))))
    /\ full_name u = "Abiel Robinson"
    /\ pin_code u = "0000"
    /\ role u = "admin".
Proof.
  intros Hup.
  destruct (run_invariant hmac_sha256 events initial initial_invariant)
    as [_ [Hadm | [Hdown _]]]; [|congruence].
  apply existsb_exists in Hadm as (u & Hin & Hu).
  unfold is_default_admin in Hu.
  apply andb_true_iff in Hu as [Hu Hrole].
  apply andb_true_iff in Hu as [Hname Hpin].
  exists u. split; [exact Hin|]. repeat split; by apply String.eqb_eq.
Qed.

Lemma only_the_default_admin_is_admin_witness :
  (In root (users (session (world (run mac_example events_register_delete
                                     initial))))
   /\ role root = "admin")
  /\ full_name root = "Abiel Robinson" /\ pin_code root = "0000".
Proof.
  assert (H1 : In root (users (session (world (run mac_example
                                                 events_register_delete
                                                 initial)))))
    by (vm_compute; by left).
  assert (H2 : role root = "admin") by reflexivity.
  split; [auto|].
  exact (only_the_default_admin_is_admin mac_example events_register_delete
           root H1 H2).
Defined.

Lemma default_admin_is_always_there_witness :
  up (run mac_example events_register_delete initial) = true
  /\ users (session (world (run mac_example events_register_delete initial)))
     = [root]
  /\ exists u,
       In u (users (session (world (run mac_example events_register_delete
                                      initial))))
       /\ full_name u = "Abiel Robinson"
       /\ pin_code u = "0000"
       /\ role u = "admin".
Proof.
  assert (H : up (run mac_example events_register_delete initial) = true)
    by (vm_compute; reflexivity).
  split; [exact H|]. split; [vm_compute; reflexivity|].
  exact (default_admin_is_always_there mac_example events_register_delete H).
Defined.

(** * Properties of the review endpoints *)

Lemma genre_eqb_eq (g h : Genre) : genre_eqb g h = true -> g = h.
Proof. destruct g, h; (reflexivity || discriminate). Qed.

Lemma review_join_member (t : Tables) (r : Review) (name : string) :
  In (r, name) (review_join t) ->
  In r (review_rows t)
  /\ exists u, In u (user_rows t) /\ id u = user_id r /\ full_name u = name.
Proof.
  unfold review_join. intros Hin.
  apply in_flat_map in Hin as (r0 & Hr0 & Hin).
  apply in_map_iff in Hin as (u & Heq & Hu).
  injection Heq as <- <-.
  apply filter_In in Hu as [Hu Hid]. apply Z.eqb_eq in Hid.
  split; [exact Hr0|]. by exists u.
Qed.

Lemma in_firstn {A} (n : nat) (l : list A) (x : A) :
  In x (firstn n l) -> In x l.
Proof.
  intros H. rewrite <- (firstn_skipn n l). apply in_or_app. by left.
Qed.

Lemma in_skipn {A} (n : nat) (l : list A) (x : A) :
  In x (skipn n l) -> In x l.
Proof.
  intros H. rewrite <- (firstn_skipn n l). apply in_or_app. by right.
Qed.

(** Every entry of a listing comes from a review of the table that
    passes the filters, joined with a user row. *)
Lemma get_reviews_member (skip limit : Z) (search : option string)
    (genre_ : option Genre) (rating_ : option Z) (my_reviews : bool)
    (current_user : User) (t : Tables) (results : list ReviewResponse)
    (resp : ReviewResponse) :
  get_reviews skip limit search genre_ rating_ my_reviews current_user t
  = inr results ->
  In resp results ->
  exists r u,
    In r (review_rows t) /\ In u (user_rows t) /\ id u = user_id r
    /\ resp = review_response r (full_name u)
    /\ review_visible search genre_ rating_ my_reviews current_user r = true.
Proof.
  unfold get_reviews.
  destruct ((skip <? 0) || (limit <? 0)); [discriminate|].
  cbv zeta. intros [= <-] Hin.
  apply in_map_iff in Hin as ([r name] & <- & Hin).
  apply in_firstn, in_skipn in Hin.
  apply filter_In in Hin as [Hin Hvis]. cbn [fst snd] in *.
  apply review_join_member in Hin as (Hr & u & Hu & Hid & <-).
  exists r, u. by repeat split.
Qed.

(** X24. What a listing can show.  The listing has at most [limit]
    entries.  Each entry is a review of the table with the name of the
    user row it belongs to; for a caller who is not admin it is never an
    archived review; with [my_reviews] it is a review of the caller; and
    it has the genre and the (non-zero) rating asked for. *)
Theorem get_reviews_shows_only_permitted
    (skip limit : Z) (search : option string) (genre_ : option Genre)
    (rating_ : option Z) (my_reviews : bool) (current_user : User)
    (t : Tables) (results : list ReviewResponse) :
  get_reviews skip limit search genre_ rating_ my_reviews current_user t
  = inr results ->
  (Z.of_nat (length results) <= limit)
  /\ forall resp, In resp results ->
       exists r u,
         In r (review_rows t) /\ In u (user_rows t) /\ id u = user_id r
         /\ resp = review_response r (full_name u)
         /\ (role current_user <> "admin" -> is_archived r = false)
         /\ (my_reviews = true -> user_id r = id current_user)
         /\ (forall g, genre_ = Some g -> genre r = g)
         /\ (forall n, rating_ = Some n -> n <> 0 -> rating r = n).
Proof.
  intros Hrun. split.
  - revert Hrun. unfold get_reviews.
    destruct (Z.ltb_spec skip 0); [discriminate|].
    destruct (Z.ltb_spec limit 0); [discriminate|].
    cbn [orb]. cbv zeta. intros [= <-].
    rewrite length_map.
    match goal with
    | |- context [firstn ?n ?l] => pose proof (firstn_le_length n l)
    end. lia.
  - intros resp Hin.
    destruct (get_reviews_member _ _ _ _ _ _ _ _ _ _ Hrun Hin)
      as (r & u & Hr & Hu & Hid & Hresp & Hvis).
    exists r, u. repeat (split; [assumption|]).
    unfold review_visible in Hvis.
    repeat (apply andb_true_iff in Hvis as [Hvis ?]).
    split; [|split; [|split]].
    + intros Hrole.
      replace (String.eqb (role current_user) "admin") with false in Hvis
        by (symmetry; by apply String.eqb_neq).
      cbn [negb] in Hvis. by apply negb_true_iff.
    + intros ->. by apply Z.eqb_eq.
    + intros g ->. by apply genre_eqb_eq.
    + intros n -> Hn.
      replace (n =? 0) with false in * by (symmetry; by apply Z.eqb_neq).
      by apply Z.eqb_eq.
Qed.

Lemma get_reviews_shows_only_permitted_witness :
  get_reviews 0 100 (Some "the") None (Some 0) false grace tables_example
  = inr [review_response review_1 "Ada Lovelace"]
  /\ (Z.of_nat (length [review_response review_1 "Ada Lovelace"]) <= 100)
  /\ forall resp, In resp [review_response review_1 "Ada Lovelace"] ->
       exists r u,
         In r (review_rows tables_example) /\ In u (user_rows tables_example)
         /\ id u = user_id r
         /\ resp = review_response r (full_name u)
         /\ (role grace <> "admin" -> is_archived r = false)
         /\ (false = true -> user_id r = id grace)
         /\ (forall g, None = Some g -> genre r = g)
         /\ (forall n, Some 0 = Some n -> n <> 0 -> rating r = n).
Proof.
  assert (H : get_reviews 0 100 (Some "the") None (Some 0) false grace
                tables_example
              = inr [review_response review_1 "Ada Lovelace"])
    by (vm_compute; reflexivity).
  split; [exact H|].
  exact (get_reviews_shows_only_permitted 0 100 (Some "the") None (Some 0)
           false grace tables_example _ H).
Defined.

Lemma get_review_filtered_out (rid : Z) (l : list Review) :
  List.find (fun r => review_id r =? rid)
    (List.filter (fun r => negb (review_id r =? rid)) l) = None.
Proof.
  induction l as [|r l IH]; [reflexivity|].
  cbn [List.filter]. destruct (review_id r =? rid) eqn:E; cbn [negb].
  - exact IH.
  - cbn [List.find]. rewrite E. exact IH.
Qed.

(** X25. [delete_review] deletes only for the owner of the review or an
    admin: when it returns, the review existed, the caller owned it or had
    the admin role, the rows with that key are gone, the other reviews and
    the users are as before, and the key is no longer found.  For anybody
    else it raises a 403, for a missing review a 404, and in both cases
    the tables are untouched. *)
Theorem delete_review_contract (rid : Z) (current_user : User) (t : Tables) :
  let run := delete_review rid current_user t in
  (fst run = Return tt ->
   exists review,
     get_review rid t = Some review
     /\ (user_id review = id current_user \/ role current_user = "admin")
     /\ user_rows (snd run) = user_rows t
     /\ review_rows (snd run)
        = List.filter (fun r => negb (review_id r =? rid)) (review_rows t)
     /\ get_review rid (snd run) = None)
  /\ (forall e, fst run = Raise e ->
        snd run = t
        /\ (get_review rid t = None ->
            e = HTTPException HTTP_404_NOT_FOUND "Review not found")
        /\ (forall review, get_review rid t = Some review ->
              e = HTTPException HTTP_403_FORBIDDEN
                    "Access denied: You can only delete your own reviews"
              /\ user_id review <> id current_user
              /\ role current_user <> "admin")).
Proof.
  cbv zeta. unfold delete_review.
  destruct (get_review rid t) as [review|] eqn:Hget.
  2: { split; [discriminate|]. intros e [= <-].
       split; [reflexivity|]. split; [reflexivity | discriminate]. }
  assert (Hid : review_id review = rid).
  { unfold get_review in Hget. apply find_some in Hget as [_ H].
    by apply Z.eqb_eq. }
  destruct (user_id review =? id current_user) eqn:Hown; cbn [negb andb].
  - apply Z.eqb_eq in Hown. split; [|discriminate].
    intros _. exists review. cbn [fst snd user_rows review_rows].
    rewrite Hid. split; [reflexivity|]. split; [by left|].
    split; [reflexivity|]. split; [reflexivity|].
    apply get_review_filtered_out.
  - destruct (String.eqb (role current_user) "admin") eqn:Hrole; cbn [negb].
    + apply String.eqb_eq in Hrole. split; [|discriminate].
      intros _. exists review. cbn [fst snd user_rows review_rows].
      rewrite Hid. split; [reflexivity|]. split; [by right|].
      split; [reflexivity|]. split; [reflexivity|].
      apply get_review_filtered_out.
    + split; [discriminate|]. intros e [= <-].
      split; [reflexivity|]. split; [discriminate|].
      intros r [= <-]. split; [reflexivity|].
      split; [by apply Z.eqb_neq | by apply String.eqb_neq].
Qed.

Lemma get_review_after_archive (now : datetime) (rid other : Z)
    (l : list Review) :
  List.find (fun r => review_id r =? other)
    (List.map (fun r => if review_id r =? rid then archived_at now r else r) l)
  = if other =? rid
    then option_map (archived_at now)
           (List.find (fun r => review_id r =? other) l)
    else List.find (fun r => review_id r =? other) l.
Proof.
  induction l as [|r l IH]; [by destruct (other =? rid)|].
  cbn [List.map List.find].
  destruct (review_id r =? rid) eqn:Erid.
  - apply Z.eqb_eq in Erid. cbn [archived_at review_id].
    destruct (review_id r =? other) eqn:Eother.
    + apply Z.eqb_eq in Eother.
      replace (other =? rid) with true
        by (symmetry; apply Z.eqb_eq; congruence).
      reflexivity.
    + exact IH.
  - destruct (review_id r =? other) eqn:Eother; [|exact IH].
    apply Z.eqb_eq in Eother. apply Z.eqb_neq in Erid.
    replace (other =? rid) with false
      by (symmetry; apply Z.eqb_neq; congruence).
    reflexivity.
Qed.

(** X26. [archive_review] is for admins only, and the role is checked
    before anything is looked up: any other caller gets a 403 and the
    tables stay as they are, whether the review exists or not.  For an
    admin and an existing review it returns; the review is then found
    archived, with [updated_at] set to the time of the call and every other
    field as before, and each other key is found exactly as before. *)
Theorem archive_review_contract
    (now : datetime) (rid : Z) (current_user : User) (t : Tables) :
  let run := archive_review now rid current_user t in
  (role current_user <> "admin" ->
   run = (Raise (HTTPException HTTP_403_FORBIDDEN "Admin access required"), t))
  /\ (role current_user = "admin" ->
      forall review, get_review rid t = Some review ->
        fst run = Return tt
        /\ user_rows (snd run) = user_rows t
        /\ length (review_rows (snd run)) = length (review_rows t)
        /\ get_review rid (snd run) = Some (archived_at now review)
        /\ forall other, other <> rid ->
             get_review other (snd run) = get_review other t).
Proof.
  cbv zeta. unfold archive_review. split.
  - intros Hrole.
    replace (String.eqb (role current_user) "admin") with false
      by (symmetry; by apply String.eqb_neq).
    reflexivity.
  - intros Hrole review Hget.
    replace (String.eqb (role current_user) "admin") with true
      by (symmetry; by apply String.eqb_eq).
    cbn [negb]. rewrite Hget. cbn [fst snd user_rows review_rows].
    assert (Hid : review_id review = rid).
    { unfold get_review in Hget. apply find_some in Hget as [_ H].
      by apply Z.eqb_eq. }
    rewrite Hid.
    split; [reflexivity|]. split; [reflexivity|].
    split; [apply length_map|].
    unfold get_review in *. cbn [review_rows]. split.
    + rewrite get_review_after_archive, Z.eqb_refl, Hget. reflexivity.
    + intros other Hne. rewrite get_review_after_archive.
      replace (other =? rid) with false by (symmetry; by apply Z.eqb_neq).
      reflexivity.
Qed.

(** X27. Archiving hides.  After an admin has archived a review, no
    listing asked for by a caller who is not admin, whatever its filters
    and paging, contains an entry with the key of that review. *)
Theorem archived_review_is_hidden
    (now : datetime) (rid : Z) (admin reader : User) (t t' : Tables)
    (skip limit : Z) (search : option string) (genre_ : option Genre)
    (rating_ : option Z) (my_reviews : bool)
    (results : list ReviewResponse) :
  archive_review now rid admin t = (Return tt, t') ->
  role reader <> "admin" ->
  get_reviews skip limit search genre_ rating_ my_reviews reader t'
  = inr results ->
  forall resp, In resp results -> rr_id resp <> rid.
Proof.
  intros Harch Hreader Hlist resp Hin Hkey.
  destruct (get_reviews_member _ _ _ _ _ _ _ _ _ _ Hlist Hin)
    as (r & u & Hr & _ & _ & -> & Hvis).
  cbn [rr_id review_response] in Hkey.
  unfold review_visible in Hvis.
  repeat (apply andb_true_iff in Hvis as [Hvis ?]).
  replace (String.eqb (role reader) "admin") with false in Hvis
    by (symmetry; by apply String.eqb_neq).
  cbn [negb] in Hvis. apply negb_true_iff in Hvis.
  revert Harch. unfold archive_review.
  destruct (negb (String.eqb (role admin) "admin")); [discriminate|].
  destruct (get_review rid t) as [review|] eqn:Hget; [|discriminate].
  assert (Hid : review_id review = rid).
  { unfold get_review in Hget. apply find_some in Hget as [_ Hfound].
    by apply Z.eqb_eq. }
  intros [= <-]. cbn [review_rows] in Hr.
  apply in_map_iff in Hr as (r0 & Hr0 & _).
  rewrite Hid in Hr0.
  destruct (review_id r0 =? rid) eqn:E.
  - subst r. cbn [archived_at is_archived] in Hvis. discriminate Hvis.
  - subst r0. apply Z.eqb_neq in E. contradiction.
Qed.

Lemma archived_review_is_hidden_witness :
  let admin := {| id := 2; full_name := "Abiel Robinson"; pin_code := "0000";
                  role := "admin"; created_at := 0 |} in
  let t' := snd (archive_review (secs 50) 3 admin tables_example) in
  (archive_review (secs 50) 3 admin tables_example = (Return tt, t')
   /\ role grace <> "admin"
   /\ get_reviews 0 100 None None None true grace t' = inr [])
  /\ get_reviews 0 100 None None None true grace tables_example
     = inr [review_response review_3 "Grace Hopper"]
  /\ forall resp, In resp [] -> rr_id resp <> 3.
Proof.
  intros admin t'.
  assert (H1 : archive_review (secs 50) 3 admin tables_example
               = (Return tt, t')) by (vm_compute; reflexivity).
  assert (H2 : role grace <> "admin") by discriminate.
  assert (H3 : get_reviews 0 100 None None None true grace t' = inr [])
    by (vm_compute; reflexivity).
  split; [auto|]. split; [vm_compute; reflexivity|].
  exact (archived_review_is_hidden (secs 50) 3 admin grace tables_example t'
           0 100 None None None true [] H1 H2 H3).
Defined.

(** X28. Deleting removes from every listing.  After [delete_review]
    has returned for a key, no listing, for any caller and any filters,
    contains an entry with that key. *)
Theorem deleted_review_is_never_listed
    (rid : Z) (caller reader : User) (t t' : Tables)
    (skip limit : Z) (search : option string) (genre_ : option Genre)
    (rating_ : option Z) (my_reviews : bool)
    (results : list ReviewResponse) :
  delete_review rid caller t = (Return tt, t') ->
  get_reviews skip limit search genre_ rating_ my_reviews reader t'
  = inr results ->
  forall resp, In resp results -> rr_id resp <> rid.
Proof.
  intros Hdel Hlist resp Hin Hkey.
  destruct (get_reviews_member _ _ _ _ _ _ _ _ _ _ Hlist Hin)
    as (r & u & Hr & _ & _ & -> & _).
  cbn [rr_id review_response] in Hkey.
  revert Hdel. unfold delete_review.
  destruct (get_review rid t) as [review|] eqn:Hget; [|discriminate].
  assert (Hid : review_id review = rid).
  { unfold get_review in Hget. apply find_some in Hget as [_ H].
    by apply Z.eqb_eq. }
  destruct (_ && _); [discriminate|].
  intros [= <-]. cbn [review_rows] in Hr.
  apply filter_In in Hr as [_ Hkeep].
  rewrite Hid, Hkey, Z.eqb_refl in Hkeep. discriminate Hkeep.
Qed.

Lemma deleted_review_is_never_listed_witness :
  let t' := snd (delete_review 3 grace tables_example) in
  (delete_review 3 grace tables_example = (Return tt, t')
   /\ get_reviews 0 100 None None None false ada t'
      = inr [review_response review_1 "Ada Lovelace"])
  /\ forall resp, In resp [review_response review_1 "Ada Lovelace"] ->
                  rr_id resp <> 3.
Proof.
  intros t'.
  assert (H1 : delete_review 3 grace tables_example = (Return tt, t'))
    by (vm_compute; reflexivity).
  assert (H2 : get_reviews 0 100 None None None false ada t'
               = inr [review_response review_1 "Ada Lovelace"])
    by (vm_compute; reflexivity).
  split; [auto|].
  exact (deleted_review_is_never_listed 3 grace ada tables_example t'
           0 100 None None None false _ H1 H2).
Defined.
